(** * The Signal FFI callback bridge

    A shallow embedding of
      - [native/signal_ffi/wrapper/wrapper.c] (the seven store adapter
        wrappers and their registration entry points), and
      - [native/signal_ffi/wrapper_platform/callback_bridge.c] (the Dispatch
        trampoline and its three registration strategies),
    followed by the properties the specification states about them.

    The C file-scope statics become the fields of one record, [world], that
    every function takes and returns.  A registered handler is host code the
    bridge only knows by its address; what lives at an address is given by a
    code table, and an indirect call is logged in a trace, so that "which
    handler was reached, with which arguments, how often" is a statement
    about a list of events. *)

From Stdlib Require Import ZArith List String Bool Lia.
Import ListNotations.
Local Open Scope Z_scope.

(** ** Native values *)

(** Addresses.  [void*], the typed callback pointers and [DispatchCallback]
    are all address-sized; the casts between them in the source keep the
    value, and no arithmetic is ever done on them. *)
Definition ptr : Type := Z.

Definition NULL : ptr := 0.

Definition is_null (p : ptr) : bool := p =? NULL.

(** [wrapper.h]: the engine's by-value wrapper structs.  Each is a struct with
    the single field [raw]; the index keeps the struct types apart. *)
Inductive pointee : Type :=
| SignalSessionRecord
| SignalPrivateKey
| SignalPublicKey
| SignalProtocolAddress.

Record SignalPointer (T : pointee) : Type := { raw : ptr }.
Arguments raw {T} _.

Definition SignalConstPointerProtocolAddress : Type :=
  SignalPointer SignalProtocolAddress.
Definition SignalConstPointerSessionRecord : Type :=
  SignalPointer SignalSessionRecord.
Definition SignalConstPointerPublicKey : Type :=
  SignalPointer SignalPublicKey.

(** The parameter objects of a wrapper whose address the wrapper takes
    ([&address], [&record], [&public_key]). *)
Inductive local : Type :=
| L_address
| L_record
| L_public_key.

(** The part of a running wrapper's activation record that is reachable from
    the handler: for each parameter object passed by address, the content of
    its [raw] field.  [None]: the wrapper has no such addressable object. *)
Record frame : Type := {
  fr_address : option ptr;
  fr_record : option ptr;
  fr_public_key : option ptr
}.

Definition no_locals : frame :=
  {| fr_address := None; fr_record := None; fr_public_key := None |}.

(** Reading the [raw] field through a pointer to a parameter object. *)
Definition deref (fr : frame) (x : local) : option ptr :=
  match x with
  | L_address => fr_address fr
  | L_record => fr_record fr
  | L_public_key => fr_public_key fr
  end.

(** What a handler receives in one argument position. *)
Inductive val : Type :=
| Vptr (p : ptr)        (* a pointer the engine supplied, passed on *)
| Vaddrof (x : local)   (* [&x], the address of a parameter object *)
| Vuint (n : Z)         (* an [unsigned int] *)
| Vu64 (n : Z).         (* a [uint64_t] *)

(** One indirect call made by the bridge. *)
Inductive event : Type :=
| EvCall (fp : ptr) (args : list val) (fr : frame).

(** ** Operations *)

(** The operations that have a wrapper in the two C files. *)
Inductive operation : Type :=
| LoadSession
| StoreSession
| GetIdentityKeyPair
| GetLocalRegistrationId
| SaveIdentityKey
| GetIdentityKey
| IsTrustedIdentity
| Dispatch.

Definition operation_eq_dec (a b : operation) : {a = b} + {a <> b}.
Proof. decide equality. Defined.

(** One call of the engine into the bridge, with its actual parameters. *)
Inductive invocation : Type :=
| CallLoadSession (store_ctx recordp : ptr)
    (address : SignalConstPointerProtocolAddress)
| CallStoreSession (store_ctx : ptr)
    (address : SignalConstPointerProtocolAddress)
    (record : SignalConstPointerSessionRecord)
| CallGetIdentityKeyPair (store_ctx keyp : ptr)
| CallGetLocalRegistrationId (store_ctx idp : ptr)
| CallSaveIdentityKey (store_ctx : ptr)
    (address : SignalConstPointerProtocolAddress)
    (public_key : SignalConstPointerPublicKey)
| CallGetIdentityKey (store_ctx public_keyp : ptr)
    (address : SignalConstPointerProtocolAddress)
| CallIsTrustedIdentity (store_ctx : ptr)
    (address : SignalConstPointerProtocolAddress)
    (public_key : SignalConstPointerPublicKey) (direction : Z)
| CallDispatch (args_address : Z).

Definition op_of (c : invocation) : operation :=
  match c with
  | CallLoadSession _ _ _ => LoadSession
  | CallStoreSession _ _ _ => StoreSession
  | CallGetIdentityKeyPair _ _ => GetIdentityKeyPair
  | CallGetLocalRegistrationId _ _ => GetLocalRegistrationId
  | CallSaveIdentityKey _ _ _ => SaveIdentityKey
  | CallGetIdentityKey _ _ _ => GetIdentityKey
  | CallIsTrustedIdentity _ _ _ _ => IsTrustedIdentity
  | CallDispatch _ => Dispatch
  end.

(** The actual parameters of an engine call, in the order of the wrapper's
    signature in [wrapper.h] and [callback_bridge.h]. *)
Inductive param : Type :=
| PPtr (p : ptr)        (* a pointer parameter *)
| PStruct (p : ptr)     (* a wrapper struct passed by value, [raw = p] *)
| PUInt (n : Z)         (* an [unsigned int] parameter *)
| PU64 (n : Z).         (* a [uint64_t] parameter *)

Definition params (c : invocation) : list param :=
  match c with
  | CallLoadSession store_ctx recordp address =>
      [PPtr store_ctx; PPtr recordp; PStruct (raw address)]
  | CallStoreSession store_ctx address record =>
      [PPtr store_ctx; PStruct (raw address); PStruct (raw record)]
  | CallGetIdentityKeyPair store_ctx keyp => [PPtr store_ctx; PPtr keyp]
  | CallGetLocalRegistrationId store_ctx idp => [PPtr store_ctx; PPtr idp]
  | CallSaveIdentityKey store_ctx address public_key =>
      [PPtr store_ctx; PStruct (raw address); PStruct (raw public_key)]
  | CallGetIdentityKey store_ctx public_keyp address =>
      [PPtr store_ctx; PPtr public_keyp; PStruct (raw address)]
  | CallIsTrustedIdentity store_ctx address public_key direction =>
      [PPtr store_ctx; PStruct (raw address); PStruct (raw public_key);
       PUInt direction]
  | CallDispatch args_address => [PU64 args_address]
  end.

(** The store context of a store operation's call; Dispatch has none. *)
Definition store_ctx_of (c : invocation) : option ptr :=
  match c with
  | CallLoadSession store_ctx _ _
  | CallStoreSession store_ctx _ _
  | CallGetIdentityKeyPair store_ctx _
  | CallGetLocalRegistrationId store_ctx _
  | CallSaveIdentityKey store_ctx _ _
  | CallGetIdentityKey store_ctx _ _
  | CallIsTrustedIdentity store_ctx _ _ _ => Some store_ctx
  | CallDispatch _ => None
  end.

(** The handler's argument [v] carries the engine's parameter [a]: a pointer
    or a scalar as the same value, a by-value struct as the address of an
    object of the frame [fr] whose [raw] field holds the struct's. *)
Definition reaches (fr : frame) (a : param) (v : val) : bool :=
  match a, v with
  | PPtr p, Vptr q => p =? q
  | PStruct p, Vaddrof x =>
      match deref fr x with
      | Some q => p =? q
      | None => false
      end
  | PUInt n, Vuint m => n =? m
  | PU64 n, Vu64 m => n =? m
  | _, _ => false
  end.

(** The registration entry points that take the handler's address. *)
Inductive entry : Type :=
| RegLoadSession
| RegStoreSession
| RegGetIdentityKeyPair
| RegGetLocalRegistrationId
| RegSaveIdentityKey
| RegGetIdentityKey
| RegIsTrustedIdentity
| RegDispatch          (* signal_register_dispatch_callback *)
| RegDispatchPtr.      (* signal_register_dispatch_callback_ptr *)

Definition entry_op (e : entry) : operation :=
  match e with
  | RegLoadSession => LoadSession
  | RegStoreSession => StoreSession
  | RegGetIdentityKeyPair => GetIdentityKeyPair
  | RegGetLocalRegistrationId => GetLocalRegistrationId
  | RegSaveIdentityKey => SaveIdentityKey
  | RegGetIdentityKey => GetIdentityKey
  | RegIsTrustedIdentity => IsTrustedIdentity
  | RegDispatch | RegDispatchPtr => Dispatch
  end.

(** One call of the host into the bridge: an address handed to one of the
    entry points above, or a name handed to
    [signal_register_dispatch_callback_by_name]. *)
Inductive registration : Type :=
| ByAddress (e : entry) (h : ptr)
| ByName (function_name : string).

Definition reg_op (r : registration) : operation :=
  match r with
  | ByAddress e _ => entry_op e
  | ByName _ => Dispatch
  end.

Section Bridge.

(** Everything outside the bridge that a handler can read or write: the
    host's store and the native memory behind the engine's pointers. The
    bridge itself never looks into it. *)
Variable H : Type.

(** A handler: host code called with the arguments in [args] while the
    calling wrapper's parameter objects are [fr]; it returns a status and
    the host state it leaves.  [None]: the handler does not return.  The
    status has the return type of the wrapper that calls it ([int], and
    [int32_t] for Dispatch), so it is handed back without conversion.  The
    registry statics have internal linkage and no accessor, so a handler
    cannot read them; it is taken not to call back into the registration
    entry points while it runs, so it does not write them either. *)
Definition handler : Type := list val -> frame -> H -> option (Z * H).

(** The code found at an address; [None] where nothing callable lives. *)
Variable code : ptr -> option handler.

(** [dlsym(RTLD_DEFAULT, name)] of the running process; [NULL] when the
    name is not found. *)
Variable dlsym : string -> ptr.

(** *** State *)

Record world : Type := {
  (* wrapper.c *)
  g_load_session_callback : ptr;
  g_store_session_callback : ptr;
  g_get_identity_key_pair_callback : ptr;
  g_get_local_registration_id_callback : ptr;
  g_save_identity_key_callback : ptr;
  g_get_identity_key_callback : ptr;
  g_is_trusted_identity_callback : ptr;
  (* callback_bridge.c *)
  g_dart_callback : ptr;
  g_dart_callback_ptr : ptr;
  (* the rest of the process *)
  host : H
}.

(** The statics right after the library is loaded: all [NULL]. *)
Definition loaded (h : H) : world :=
  {| g_load_session_callback := NULL;
     g_store_session_callback := NULL;
     g_get_identity_key_pair_callback := NULL;
     g_get_local_registration_id_callback := NULL;
     g_save_identity_key_callback := NULL;
     g_get_identity_key_callback := NULL;
     g_is_trusted_identity_callback := NULL;
     g_dart_callback := NULL;
     g_dart_callback_ptr := NULL;
     host := h |}.

Definition with_host (h : H) (w : world) : world :=
  {| g_load_session_callback := g_load_session_callback w;
     g_store_session_callback := g_store_session_callback w;
     g_get_identity_key_pair_callback := g_get_identity_key_pair_callback w;
     g_get_local_registration_id_callback :=
       g_get_local_registration_id_callback w;
     g_save_identity_key_callback := g_save_identity_key_callback w;
     g_get_identity_key_callback := g_get_identity_key_callback w;
     g_is_trusted_identity_callback := g_is_trusted_identity_callback w;
     g_dart_callback := g_dart_callback w;
     g_dart_callback_ptr := g_dart_callback_ptr w;
     host := h |}.

(** The result of running a wrapper. *)
Inductive outcome : Type :=
| Returns (status : Z) (w : world)
| Undefined.   (* a call through an address without code, or into a
                  handler that does not return *)

Record result : Type := { trace : list event; out : outcome }.

(** [fp(args...)]: the call is logged, then the code at [fp] runs on the
    host state. *)
Definition call_indirect (fp : ptr) (args : list val) (fr : frame)
    (w : world) : result :=
  {| trace := [EvCall fp args fr];
     out := match code fp with
            | Some f =>
                match f args fr (host w) with
                | Some (status, h') => Returns status (with_host h' w)
                | None => Undefined
                end
            | None => Undefined
            end |}.

(** [return 1;] on the not-registered path. *)
Definition not_registered (w : world) : result :=
  {| trace := []; out := Returns 1 w |}.

(** *** wrapper.c: registration *)

Definition spots_register_load_session_callback (callback : ptr)
    (w : world) : world :=
  {| g_load_session_callback := callback;
     g_store_session_callback := g_store_session_callback w;
     g_get_identity_key_pair_callback := g_get_identity_key_pair_callback w;
     g_get_local_registration_id_callback :=
       g_get_local_registration_id_callback w;
     g_save_identity_key_callback := g_save_identity_key_callback w;
     g_get_identity_key_callback := g_get_identity_key_callback w;
     g_is_trusted_identity_callback := g_is_trusted_identity_callback w;
     g_dart_callback := g_dart_callback w;
     g_dart_callback_ptr := g_dart_callback_ptr w;
     host := host w |}.

Definition spots_register_store_session_callback (callback : ptr)
    (w : world) : world :=
  {| g_load_session_callback := g_load_session_callback w;
     g_store_session_callback := callback;
     g_get_identity_key_pair_callback := g_get_identity_key_pair_callback w;
     g_get_local_registration_id_callback :=
       g_get_local_registration_id_callback w;
     g_save_identity_key_callback := g_save_identity_key_callback w;
     g_get_identity_key_callback := g_get_identity_key_callback w;
     g_is_trusted_identity_callback := g_is_trusted_identity_callback w;
     g_dart_callback := g_dart_callback w;
     g_dart_callback_ptr := g_dart_callback_ptr w;
     host := host w |}.

Definition spots_register_get_identity_key_pair_callback (callback : ptr)
    (w : world) : world :=
  {| g_load_session_callback := g_load_session_callback w;
     g_store_session_callback := g_store_session_callback w;
     g_get_identity_key_pair_callback := callback;
     g_get_local_registration_id_callback :=
       g_get_local_registration_id_callback w;
     g_save_identity_key_callback := g_save_identity_key_callback w;
     g_get_identity_key_callback := g_get_identity_key_callback w;
     g_is_trusted_identity_callback := g_is_trusted_identity_callback w;
     g_dart_callback := g_dart_callback w;
     g_dart_callback_ptr := g_dart_callback_ptr w;
     host := host w |}.

Definition spots_register_get_local_registration_id_callback
    (callback : ptr) (w : world) : world :=
  {| g_load_session_callback := g_load_session_callback w;
     g_store_session_callback := g_store_session_callback w;
     g_get_identity_key_pair_callback := g_get_identity_key_pair_callback w;
     g_get_local_registration_id_callback := callback;
     g_save_identity_key_callback := g_save_identity_key_callback w;
     g_get_identity_key_callback := g_get_identity_key_callback w;
     g_is_trusted_identity_callback := g_is_trusted_identity_callback w;
     g_dart_callback := g_dart_callback w;
     g_dart_callback_ptr := g_dart_callback_ptr w;
     host := host w |}.

Definition spots_register_save_identity_key_callback (callback : ptr)
    (w : world) : world :=
  {| g_load_session_callback := g_load_session_callback w;
     g_store_session_callback := g_store_session_callback w;
     g_get_identity_key_pair_callback := g_get_identity_key_pair_callback w;
     g_get_local_registration_id_callback :=
       g_get_local_registration_id_callback w;
     g_save_identity_key_callback := callback;
     g_get_identity_key_callback := g_get_identity_key_callback w;
     g_is_trusted_identity_callback := g_is_trusted_identity_callback w;
     g_dart_callback := g_dart_callback w;
     g_dart_callback_ptr := g_dart_callback_ptr w;
     host := host w |}.

Definition spots_register_get_identity_key_callback (callback : ptr)
    (w : world) : world :=
  {| g_load_session_callback := g_load_session_callback w;
     g_store_session_callback := g_store_session_callback w;
     g_get_identity_key_pair_callback := g_get_identity_key_pair_callback w;
     g_get_local_registration_id_callback :=
       g_get_local_registration_id_callback w;
     g_save_identity_key_callback := g_save_identity_key_callback w;
     g_get_identity_key_callback := callback;
     g_is_trusted_identity_callback := g_is_trusted_identity_callback w;
     g_dart_callback := g_dart_callback w;
     g_dart_callback_ptr := g_dart_callback_ptr w;
     host := host w |}.

Definition spots_register_is_trusted_identity_callback (callback : ptr)
    (w : world) : world :=
  {| g_load_session_callback := g_load_session_callback w;
     g_store_session_callback := g_store_session_callback w;
     g_get_identity_key_pair_callback := g_get_identity_key_pair_callback w;
     g_get_local_registration_id_callback :=
       g_get_local_registration_id_callback w;
     g_save_identity_key_callback := g_save_identity_key_callback w;
     g_get_identity_key_callback := g_get_identity_key_callback w;
     g_is_trusted_identity_callback := callback;
     g_dart_callback := g_dart_callback w;
     g_dart_callback_ptr := g_dart_callback_ptr w;
     host := host w |}.

(** *** wrapper.c: the store adapter wrappers *)

Definition spots_load_session_wrapper (store_ctx recordp : ptr)
    (address : SignalConstPointerProtocolAddress) (w : world) : result :=
  if is_null (g_load_session_callback w) then not_registered w
  else call_indirect (g_load_session_callback w)
         [Vptr store_ctx; Vptr recordp; Vaddrof L_address]
         {| fr_address := Some (raw address);
            fr_record := None;
            fr_public_key := None |} w.

Definition spots_store_session_wrapper (store_ctx : ptr)
    (address : SignalConstPointerProtocolAddress)
    (record : SignalConstPointerSessionRecord) (w : world) : result :=
  if is_null (g_store_session_callback w) then not_registered w
  else call_indirect (g_store_session_callback w)
         [Vptr store_ctx; Vaddrof L_address; Vaddrof L_record]
         {| fr_address := Some (raw address);
            fr_record := Some (raw record);
            fr_public_key := None |} w.

Definition spots_get_identity_key_pair_wrapper (store_ctx keyp : ptr)
    (w : world) : result :=
  if is_null (g_get_identity_key_pair_callback w) then not_registered w
  else call_indirect (g_get_identity_key_pair_callback w)
         [Vptr store_ctx; Vptr keyp] no_locals w.

Definition spots_get_local_registration_id_wrapper (store_ctx idp : ptr)
    (w : world) : result :=
  if is_null (g_get_local_registration_id_callback w) then not_registered w
  else call_indirect (g_get_local_registration_id_callback w)
         [Vptr store_ctx; Vptr idp] no_locals w.

Definition spots_save_identity_key_wrapper (store_ctx : ptr)
    (address : SignalConstPointerProtocolAddress)
    (public_key : SignalConstPointerPublicKey) (w : world) : result :=
  if is_null (g_save_identity_key_callback w) then not_registered w
  else call_indirect (g_save_identity_key_callback w)
         [Vptr store_ctx; Vaddrof L_address; Vaddrof L_public_key]
         {| fr_address := Some (raw address);
            fr_record := None;
            fr_public_key := Some (raw public_key) |} w.

Definition spots_get_identity_key_wrapper (store_ctx public_keyp : ptr)
    (address : SignalConstPointerProtocolAddress) (w : world) : result :=
  if is_null (g_get_identity_key_callback w) then not_registered w
  else call_indirect (g_get_identity_key_callback w)
         [Vptr store_ctx; Vptr public_keyp; Vaddrof L_address]
         {| fr_address := Some (raw address);
            fr_record := None;
            fr_public_key := None |} w.

Definition spots_is_trusted_identity_wrapper (store_ctx : ptr)
    (address : SignalConstPointerProtocolAddress)
    (public_key : SignalConstPointerPublicKey) (direction : Z)
    (w : world) : result :=
  if is_null (g_is_trusted_identity_callback w) then not_registered w
  else call_indirect (g_is_trusted_identity_callback w)
         [Vptr store_ctx; Vaddrof L_address; Vaddrof L_public_key;
          Vuint direction]
         {| fr_address := Some (raw address);
            fr_record := None;
            fr_public_key := Some (raw public_key) |} w.

(** *** callback_bridge.c *)

Definition signal_dispatch_wrapper (args_address : Z) (w : world)
    : result :=
  if is_null (g_dart_callback w) then not_registered w
  else call_indirect (g_dart_callback w) [Vu64 args_address] no_locals w.

(** Option 1: the function pointer itself. *)
Definition signal_register_dispatch_callback (callback : ptr)
    (w : world) : world :=
  {| g_load_session_callback := g_load_session_callback w;
     g_store_session_callback := g_store_session_callback w;
     g_get_identity_key_pair_callback := g_get_identity_key_pair_callback w;
     g_get_local_registration_id_callback :=
       g_get_local_registration_id_callback w;
     g_save_identity_key_callback := g_save_identity_key_callback w;
     g_get_identity_key_callback := g_get_identity_key_callback w;
     g_is_trusted_identity_callback := g_is_trusted_identity_callback w;
     g_dart_callback := callback;
     g_dart_callback_ptr := g_dart_callback_ptr w;
     host := host w |}.

(** Option 2: the function pointer as a [void*]. *)
Definition signal_register_dispatch_callback_ptr (callback_ptr : ptr)
    (w : world) : world :=
  {| g_load_session_callback := g_load_session_callback w;
     g_store_session_callback := g_store_session_callback w;
     g_get_identity_key_pair_callback := g_get_identity_key_pair_callback w;
     g_get_local_registration_id_callback :=
       g_get_local_registration_id_callback w;
     g_save_identity_key_callback := g_save_identity_key_callback w;
     g_get_identity_key_callback := g_get_identity_key_callback w;
     g_is_trusted_identity_callback := g_is_trusted_identity_callback w;
     g_dart_callback := callback_ptr;
     g_dart_callback_ptr := callback_ptr;
     host := host w |}.

(** Option 3: the function's name, looked up with [dlsym]. *)
Definition signal_register_dispatch_callback_by_name
    (function_name : string) (w : world) : world :=
  let func_ptr := dlsym function_name in
  if negb (is_null func_ptr) then
    {| g_load_session_callback := g_load_session_callback w;
       g_store_session_callback := g_store_session_callback w;
       g_get_identity_key_pair_callback :=
         g_get_identity_key_pair_callback w;
       g_get_local_registration_id_callback :=
         g_get_local_registration_id_callback w;
       g_save_identity_key_callback := g_save_identity_key_callback w;
       g_get_identity_key_callback := g_get_identity_key_callback w;
       g_is_trusted_identity_callback := g_is_trusted_identity_callback w;
       g_dart_callback := func_ptr;
       g_dart_callback_ptr := func_ptr;
       host := host w |}
  else w.

(** *** The two surfaces, by operation *)

(** The engine-facing surface. *)
Definition invoke (c : invocation) (w : world) : result :=
  match c with
  | CallLoadSession store_ctx recordp address =>
      spots_load_session_wrapper store_ctx recordp address w
  | CallStoreSession store_ctx address record =>
      spots_store_session_wrapper store_ctx address record w
  | CallGetIdentityKeyPair store_ctx keyp =>
      spots_get_identity_key_pair_wrapper store_ctx keyp w
  | CallGetLocalRegistrationId store_ctx idp =>
      spots_get_local_registration_id_wrapper store_ctx idp w
  | CallSaveIdentityKey store_ctx address public_key =>
      spots_save_identity_key_wrapper store_ctx address public_key w
  | CallGetIdentityKey store_ctx public_keyp address =>
      spots_get_identity_key_wrapper store_ctx public_keyp address w
  | CallIsTrustedIdentity store_ctx address public_key direction =>
      spots_is_trusted_identity_wrapper store_ctx address public_key
        direction w
  | CallDispatch args_address => signal_dispatch_wrapper args_address w
  end.

(** The host-facing surface. *)
Definition register (e : entry) (h : ptr) (w : world) : world :=
  match e with
  | RegLoadSession => spots_register_load_session_callback h w
  | RegStoreSession => spots_register_store_session_callback h w
  | RegGetIdentityKeyPair =>
      spots_register_get_identity_key_pair_callback h w
  | RegGetLocalRegistrationId =>
      spots_register_get_local_registration_id_callback h w
  | RegSaveIdentityKey => spots_register_save_identity_key_callback h w
  | RegGetIdentityKey => spots_register_get_identity_key_callback h w
  | RegIsTrustedIdentity => spots_register_is_trusted_identity_callback h w
  | RegDispatch => signal_register_dispatch_callback h w
  | RegDispatchPtr => signal_register_dispatch_callback_ptr h w
  end.

Definition perform (r : registration) (w : world) : world :=
  match r with
  | ByAddress e h => register e h w
  | ByName function_name =>
      signal_register_dispatch_callback_by_name function_name w
  end.

(** The address a registration hands to the bridge. *)
Definition supplied (r : registration) : ptr :=
  match r with
  | ByAddress _ h => h
  | ByName function_name => dlsym function_name
  end.

(** The static a wrapper tests and calls through. *)
Definition slot (o : operation) (w : world) : ptr :=
  match o with
  | LoadSession => g_load_session_callback w
  | StoreSession => g_store_session_callback w
  | GetIdentityKeyPair => g_get_identity_key_pair_callback w
  | GetLocalRegistrationId => g_get_local_registration_id_callback w
  | SaveIdentityKey => g_save_identity_key_callback w
  | GetIdentityKey => g_get_identity_key_callback w
  | IsTrustedIdentity => g_is_trusted_identity_callback w
  | Dispatch => g_dart_callback w
  end.

(** *** What the engine and the host can see of a run *)

Definition status_of (r : result) : option Z :=
  match out r with
  | Returns status _ => Some status
  | Undefined => None
  end.

Definition host_after (r : result) : option H :=
  match out r with
  | Returns _ w => Some (host w)
  | Undefined => None
  end.

(** The handler calls made, the status returned, the host state left. *)
Definition observe (r : result) : list event * option Z * option H :=
  (trace r, status_of r, host_after r).

(** [w1] and [w2] agree on the host state and on every static except,
    possibly, [g_dart_callback_ptr]. *)
Definition same_except_dart_callback_ptr (w1 w2 : world) : Prop :=
  (forall o, slot o w1 = slot o w2) /\ host w1 = host w2.

(** A series of engine calls, one after the other; it stops at the first
    call that does not return. *)
Fixpoint run (cs : list invocation) (w : world)
    : list (invocation * result) :=
  match cs with
  | [] => []
  | c :: cs' =>
      let r := invoke c w in
      (c, r) :: match out r with
                | Returns _ w' => run cs' w'
                | Undefined => []
                end
  end.

(** The view of a run that the engine and the host share. *)
Definition shown (cr : invocation * result)
    : invocation * (list event * option Z * option H) :=
  (fst cr, observe (snd cr)).

End Bridge.

Arguments Returns {H} _ _.
Arguments Undefined {H}.
Arguments trace {H} _.
Arguments out {H} _.
Arguments g_load_session_callback {H} _.
Arguments g_store_session_callback {H} _.
Arguments g_get_identity_key_pair_callback {H} _.
Arguments g_get_local_registration_id_callback {H} _.
Arguments g_save_identity_key_callback {H} _.
Arguments g_get_identity_key_callback {H} _.
Arguments g_is_trusted_identity_callback {H} _.
Arguments g_dart_callback {H} _.
Arguments g_dart_callback_ptr {H} _.
Arguments host {H} _.
Arguments loaded {H} _.
Arguments with_host {H} _ _.
Arguments not_registered {H} _.
Arguments slot {H} _ _.
Arguments register {H} _ _ _.
Arguments invoke {H} _ _ _.
Arguments run {H} _ _ _.
Arguments call_indirect {H} _ _ _ _ _.
Arguments status_of {H} _.
Arguments host_after {H} _.
Arguments observe {H} _.
Arguments shown {H} _.
Arguments perform {H} _ _ _.
Arguments same_except_dart_callback_ptr {H} _ _.
Arguments spots_register_load_session_callback {H} _ _.
Arguments spots_register_store_session_callback {H} _ _.
Arguments spots_register_get_identity_key_pair_callback {H} _ _.
Arguments spots_register_get_local_registration_id_callback {H} _ _.
Arguments spots_register_save_identity_key_callback {H} _ _.
Arguments spots_register_get_identity_key_callback {H} _ _.
Arguments spots_register_is_trusted_identity_callback {H} _ _.
Arguments spots_load_session_wrapper {H} _ _ _ _ _.
Arguments spots_store_session_wrapper {H} _ _ _ _ _.
Arguments spots_get_identity_key_pair_wrapper {H} _ _ _ _.
Arguments spots_get_local_registration_id_wrapper {H} _ _ _ _.
Arguments spots_save_identity_key_wrapper {H} _ _ _ _ _.
Arguments spots_get_identity_key_wrapper {H} _ _ _ _ _.
Arguments spots_is_trusted_identity_wrapper {H} _ _ _ _ _ _.
Arguments signal_dispatch_wrapper {H} _ _ _.
Arguments signal_register_dispatch_callback {H} _ _.
Arguments signal_register_dispatch_callback_ptr {H} _ _.
Arguments signal_register_dispatch_callback_by_name {H} _ _ _.

(** ** Handlers used in the scenarios *)

(** A host whose state is the list of [(context, address)] pairs its handler
    has seen, most recent first. *)
Definition seen : Type := list (ptr * ptr).

(** A LoadSession handler that records the context it received and the
    protocol address it finds behind its third argument, and returns [0]. *)
Definition recording_handler : handler seen :=
  fun args fr log =>
    match args with
    | [Vptr ctx; Vptr _; Vaddrof x] =>
        match deref fr x with
        | Some addr => Some (0, (ctx, addr) :: log)
        | None => None
        end
    | _ => None
    end.

(** A handler that ignores its arguments and returns [status]. *)
Definition constant_handler (status : Z) : handler seen :=
  fun _ _ log => Some (status, log).

(** An IsTrustedIdentity handler: [1] when the direction is [2], else [0];
    it records the context and the direction it received. *)
Definition direction_handler : handler seen :=
  fun args _ log =>
    match args with
    | [Vptr ctx; Vaddrof _; Vaddrof _; Vuint direction] =>
        Some (if direction =? 2 then 1 else 0, (ctx, direction) :: log)
    | _ => None
    end.

(** A process image with four callable addresses. *)
Definition demo_code (p : ptr) : option (handler seen) :=
  if p =? 4096 then Some recording_handler
  else if p =? 8192 then Some (constant_handler 1)
  else if p =? 12288 then Some (constant_handler 0)
  else if p =? 16384 then Some direction_handler
  else None.

(** Its dynamic symbol table: one exported function. *)
Definition demo_dlsym (name : string) : ptr :=
  if String.eqb name "spots_dart_dispatch" then 8192 else NULL.

(** ** Histories *)

(** What happens to a loaded bridge, one step at a time: the host registers,
    or the engine calls. *)
Inductive action : Type :=
| Host (r : registration)
| Engine (c : invocation).

(** A registration through [signal_register_dispatch_callback], the one
    strategy that writes [g_dart_callback] alone. *)
Definition is_direct (a : action) : bool :=
  match a with
  | Host (ByAddress RegDispatch _) => true
  | _ => false
  end.

Section History.

Variable H : Type.
Variable code : ptr -> option (handler H).
Variable dlsym : string -> ptr.

(** The state a history leaves; [None] when one of its engine calls did not
    return. *)
Fixpoint after (acts : list action) (w : world H) : option (world H) :=
  match acts with
  | [] => Some w
  | Host r :: acts' => after acts' (perform dlsym r w)
  | Engine c :: acts' =>
      match out (invoke code c w) with
      | Returns _ w' => after acts' w'
      | Undefined => None
      end
  end.

(** The registry seen from outside, as one cell per operation: a
    registration by address for [o] overwrites the cell of [o], a
    registration by name overwrites the Dispatch cell when the name is
    found and does nothing otherwise, an engine call leaves the cells
    alone.  [last_supplied o acts cur] is the content of the cell of [o]
    after [acts], when it held [cur] before. *)
Definition takes_effect (r : registration) : bool :=
  match r with
  | ByAddress _ _ => true
  | ByName function_name => negb (is_null (dlsym function_name))
  end.

Fixpoint last_supplied (o : operation) (acts : list action) (cur : ptr)
    : ptr :=
  match acts with
  | [] => cur
  | Host r :: acts' =>
      last_supplied o acts'
        (if operation_eq_dec (reg_op r) o then
           if takes_effect r then supplied dlsym r else cur
         else cur)
  | Engine _ :: acts' => last_supplied o acts' cur
  end.

End History.

Arguments after {H} _ _ _ _.

(** A history: register by address, call, register by name. *)
Definition demo_history : list action :=
  [Host (ByAddress RegDispatchPtr 12288);
   Engine (CallDispatch 1);
   Host (ByName "spots_dart_dispatch")].

(** ** callback_bridge.c: the exported trampoline address *)

Section Linked.

Variable H : Type.
Variable code : ptr -> option (handler H).

(** Where the loader put [signal_dispatch_wrapper]. *)
Variable signal_dispatch_wrapper_at : ptr.

Definition signal_get_dispatch_function_ptr : ptr :=
  signal_dispatch_wrapper_at.

(** [signal_dispatch_wrapper] in a process where its own address is
    callable like any other [DispatchCallback]: when [g_dart_callback] holds
    that address, the call [g_dart_callback(args_address)] enters the
    trampoline again, with the same argument and the same statics.  [fuel]
    bounds the depth of that recursion; [None]: the bound was reached. *)
Fixpoint signal_dispatch_wrapper_linked (fuel : nat) (args_address : Z)
    (w : world H) : option (result H) :=
  match fuel with
  | O => None
  | S fuel' =>
      if is_null (g_dart_callback w) then Some (not_registered w)
      else if g_dart_callback w =? signal_dispatch_wrapper_at then
        match signal_dispatch_wrapper_linked fuel' args_address w with
        | Some r =>
            Some {| trace := EvCall (g_dart_callback w) [Vu64 args_address]
                               no_locals :: trace r;
                    out := out r |}
        | None => None
        end
      else Some (call_indirect code (g_dart_callback w) [Vu64 args_address]
                   no_locals w)
  end.

End Linked.

Arguments signal_dispatch_wrapper_linked {H} _ _ _ _ _.

(** ** Properties *)

Section Properties.

Context {H : Type}.
Variable code : ptr -> option (handler H).
Variable dlsym : string -> ptr.

Implicit Types (w : world H) (c : invocation) (e : entry) (o : operation)
  (h : ptr).

(** *** The registry *)

Lemma is_null_true (p : ptr) : is_null p = true <-> p = NULL.
Proof. unfold is_null. apply Z.eqb_eq. Qed.

Lemma is_null_false (p : ptr) : is_null p = false <-> p <> NULL.
Proof. unfold is_null. apply Z.eqb_neq. Qed.

Lemma slot_with_host o (x : H) w : slot o (with_host x w) = slot o w.
Proof. destruct o; reflexivity. Qed.

(** Before any registration every slot is empty. *)
Lemma loaded_unregistered o (x : H) : slot o (loaded x) = NULL.
Proof. destruct o; reflexivity. Qed.

(** A registration stores its argument in the slot of its operation ... *)
Lemma slot_register_same e h w : slot (entry_op e) (register e h w) = h.
Proof. destruct e; reflexivity. Qed.

(** ... and in no other slot. *)
Lemma slot_register_other e o h w :
  entry_op e <> o -> slot o (register e h w) = slot o w.
Proof. destruct e, o; simpl; intros Hne; try reflexivity; congruence. Qed.

Lemma host_register e h w : host (register e h w) = host w.
Proof. destruct e; reflexivity. Qed.

Lemma slot_by_name_resolved function_name w :
  dlsym function_name <> NULL ->
  slot Dispatch (signal_register_dispatch_callback_by_name dlsym
                   function_name w) = dlsym function_name.
Proof.
  intros Hr. apply is_null_false in Hr.
  unfold signal_register_dispatch_callback_by_name. rewrite Hr. reflexivity.
Qed.

Lemma by_name_unresolved function_name w :
  dlsym function_name = NULL ->
  signal_register_dispatch_callback_by_name dlsym function_name w = w.
Proof.
  intros Hr. apply is_null_true in Hr.
  unfold signal_register_dispatch_callback_by_name. rewrite Hr. reflexivity.
Qed.

Lemma slot_by_name_other function_name o w :
  o <> Dispatch ->
  slot o (signal_register_dispatch_callback_by_name dlsym function_name w)
  = slot o w.
Proof.
  intros Ho. unfold signal_register_dispatch_callback_by_name.
  destruct (negb _); [| reflexivity].
  destruct o; try reflexivity. congruence.
Qed.

Lemma host_by_name function_name w :
  host (signal_register_dispatch_callback_by_name dlsym function_name w)
  = host w.
Proof.
  unfold signal_register_dispatch_callback_by_name.
  destruct (negb _); reflexivity.
Qed.

Lemma slot_perform_same (r : registration) w :
  supplied dlsym r <> NULL ->
  slot (reg_op r) (perform dlsym r w) = supplied dlsym r.
Proof.
  destruct r as [e h | function_name]; simpl; intros Hr.
  - apply slot_register_same.
  - now apply slot_by_name_resolved.
Qed.

Lemma slot_perform_other (r : registration) o w :
  reg_op r <> o -> slot o (perform dlsym r w) = slot o w.
Proof.
  destruct r as [e h | function_name]; simpl; intros Hr.
  - now apply slot_register_other.
  - apply slot_by_name_other. congruence.
Qed.

Lemma host_perform (r : registration) w :
  host (perform dlsym r w) = host w.
Proof.
  destruct r; simpl; [apply host_register | apply host_by_name].
Qed.

(** *** The wrappers: one test, at most one call *)

(** Case analysis on the engine's call, down to the body of the wrapper it
    runs. *)
Ltac unfold_wrappers :=
  unfold spots_load_session_wrapper, spots_store_session_wrapper,
    spots_get_identity_key_pair_wrapper,
    spots_get_local_registration_id_wrapper,
    spots_save_identity_key_wrapper, spots_get_identity_key_wrapper,
    spots_is_trusted_identity_wrapper, signal_dispatch_wrapper.

(** The slot empty: the wrapper is [return 1]. *)
Lemma invoke_unregistered c w :
  slot (op_of c) w = NULL -> invoke code c w = not_registered w.
Proof.
  intros Hs. apply is_null_true in Hs.
  destruct c; simpl in *; unfold_wrappers; rewrite Hs; reflexivity.
Qed.

(** The slot filled: the wrapper is one call through the slot. *)
Lemma invoke_registered c w :
  slot (op_of c) w <> NULL ->
  exists args fr,
    invoke code c w = call_indirect code (slot (op_of c) w) args fr w.
Proof.
  intros Hs. apply is_null_false in Hs.
  destruct c; simpl in *; unfold_wrappers; rewrite Hs; eauto.
Qed.

(** A wrapper that returns leaves every static as it found it. *)
Lemma invoke_keeps_statics c w status w' :
  out (invoke code c w) = Returns status w' -> w' = with_host (host w') w.
Proof.
  destruct (Z.eq_dec (slot (op_of c) w) NULL) as [Hs | Hs].
  - rewrite (invoke_unregistered _ _ Hs). simpl. intros [= _ <-].
    destruct w; reflexivity.
  - destruct (invoke_registered _ _ Hs) as (args & fr & ->). simpl.
    destruct (code _) as [f |]; [| discriminate].
    destruct (f args fr (host w)) as [[s x] |]; [| discriminate].
    intros [= _ <-]. reflexivity.
Qed.

Lemma invoke_keeps_slot c w status w' o :
  out (invoke code c w) = Returns status w' -> slot o w' = slot o w.
Proof.
  intros Hr. rewrite (invoke_keeps_statics _ _ _ _ Hr).
  apply slot_with_host.
Qed.

(** What a wrapper shows depends on its own slot and on the host state
    only. *)
Lemma observe_invoke_ext c w1 w2 :
  slot (op_of c) w1 = slot (op_of c) w2 ->
  host w1 = host w2 ->
  observe (invoke code c w1) = observe (invoke code c w2).
Proof.
  intros Hs Hh.
  destruct (Z.eq_dec (slot (op_of c) w2) NULL) as [Hn | Hn].
  - rewrite !invoke_unregistered by congruence.
    unfold observe, status_of, host_after. simpl. now rewrite Hh.
  - assert (Hm : slot (op_of c) w1 <> NULL) by congruence.
    destruct c; simpl in *; apply is_null_false in Hn, Hm;
      unfold_wrappers;
      rewrite Hn, Hm, Hs;
      unfold observe, status_of, host_after, call_indirect; simpl;
      rewrite Hh; destruct (code _) as [f |]; try reflexivity;
      destruct (f _ _ _) as [[s x] |]; reflexivity.
Qed.

(** *** Series of engine calls *)

Lemma run_ext cs : forall w1 w2,
  Forall (fun c => slot (op_of c) w1 = slot (op_of c) w2) cs ->
  host w1 = host w2 ->
  map shown (run code cs w1) = map shown (run code cs w2).
Proof.
  induction cs as [| c cs IH]; intros w1 w2 Hs Hh; [reflexivity |].
  inversion Hs as [| ? ? Hc Hcs]; subst.
  simpl. unfold shown at 1 3. simpl.
  pose proof (observe_invoke_ext c w1 w2 Hc Hh) as Ho.
  rewrite Ho. f_equal.
  unfold observe, status_of, host_after in Ho.
  destruct (out (invoke code c w1)) as [s1 w1' |] eqn:E1;
    destruct (out (invoke code c w2)) as [s2 w2' |] eqn:E2;
    try discriminate; [| reflexivity].
  apply IH.
  - apply Forall_forall. intros c' Hin.
    rewrite (invoke_keeps_slot _ _ _ _ (op_of c') E1).
    rewrite (invoke_keeps_slot _ _ _ _ (op_of c') E2).
    rewrite Forall_forall in Hcs. now apply Hcs.
  - congruence.
Qed.

(** As long as the slot of [o] holds [h], every call of [o] in a run is one
    call of [h]. *)
Lemma run_reaches cs : forall w o h,
  slot o w = h -> h <> NULL ->
  Forall (fun cr => op_of (fst cr) = o ->
                    exists args fr, trace (snd cr) = [EvCall h args fr])
         (run code cs w).
Proof.
  induction cs as [| c cs IH]; intros w o h Hs Hh; simpl; constructor.
  - simpl. intros <-. rewrite <- Hs in Hh.
    destruct (invoke_registered c w Hh) as (args & fr & ->).
    rewrite <- Hs. simpl. eauto.
  - destruct (out (invoke code c w)) as [s w' |] eqn:E; [| constructor].
    apply IH; [| assumption].
    rewrite (invoke_keeps_slot _ _ _ _ o E). assumption.
Qed.

(** With a handler at the address in the slot, a wrapper is that handler
    applied, once, to the arguments the wrapper passes and to the host
    state of the moment. *)
Lemma invoke_applies_code c w h (f : handler H) :
  slot (op_of c) w = h ->
  h <> NULL ->
  code h = Some f ->
  exists args fr,
    trace (invoke code c w) = [EvCall h args fr] /\
    out (invoke code c w) =
      match f args fr (host w) with
      | Some (status, x) => Returns status (with_host x w)
      | None => Undefined
      end.
Proof.
  intros <- Hn Hf.
  destruct (invoke_registered c w Hn) as (args & fr & E).
  exists args, fr. rewrite E. unfold call_indirect. simpl.
  rewrite Hf. split; reflexivity.
Qed.

(** A series of engine calls that return leaves every slot as it was. *)
Lemma after_engine_keeps_slot cs : forall w w' o,
  after code dlsym (map Engine cs) w = Some w' -> slot o w' = slot o w.
Proof.
  induction cs as [| c cs IH]; intros w w' o Ha; simpl in Ha.
  - now injection Ha as <-.
  - destruct (out (invoke code c w)) as [s w1 |] eqn:E; [| discriminate].
    rewrite (IH _ _ o Ha). apply (invoke_keeps_slot c w s w1 o E).
Qed.

(** *** The properties of the specification *)

(** C1.  Whatever the operation, the wrapper invoked while the slot of its
    operation is empty returns the status [1], has called no handler (the
    trace is empty) and has touched nothing: the world it leaves is the one
    it found, whatever the pointers it was given and whatever lies behind
    them. *)
Theorem unregistered_returns_sentinel c w :
  slot (op_of c) w = NULL ->
  trace (invoke code c w) = [] /\ out (invoke code c w) = Returns 1 w.
Proof.
  intros Hs. rewrite (invoke_unregistered c w Hs). split; reflexivity.
Qed.

(** C3.  With a handler [f] registered, the wrapper makes exactly one call,
    to the registered address, and its outcome is the outcome of that call:
    the status [f] returns is the status the wrapper returns, whatever
    its value. *)
Theorem status_forwarded_verbatim c w f :
  slot (op_of c) w <> NULL ->
  code (slot (op_of c) w) = Some f ->
  exists args fr,
    trace (invoke code c w) = [EvCall (slot (op_of c) w) args fr] /\
    out (invoke code c w) =
      match f args fr (host w) with
      | Some (status, x) => Returns status (with_host x w)
      | None => Undefined
      end /\
    forall status x,
      f args fr (host w) = Some (status, x) ->
      status_of (invoke code c w) = Some status.
Proof.
  intros Hs Hf.
  destruct (invoke_registered c w Hs) as (args & fr & E).
  exists args, fr. rewrite E. unfold status_of, call_indirect. simpl.
  rewrite Hf. repeat split.
  intros status x ->. reflexivity.
Qed.

(** C8.  When the registered handler returns [1] for the call a wrapper
    makes, the wrapper returns [1], which is also what it returns with no
    handler registered: the two situations give the engine the same
    status. *)
Theorem sentinel_ambiguous c w w0 f args fr x :
  slot (op_of c) w <> NULL ->
  code (slot (op_of c) w) = Some f ->
  trace (invoke code c w) = [EvCall (slot (op_of c) w) args fr] ->
  f args fr (host w) = Some (1, x) ->
  slot (op_of c) w0 = NULL ->
  status_of (invoke code c w) = Some 1 /\
  status_of (invoke code c w0) = Some 1 /\
  status_of (invoke code c w) = status_of (invoke code c w0).
Proof.
  intros Hs Hf Ht Hr H0.
  rewrite (invoke_unregistered c w0 H0).
  destruct (invoke_registered c w Hs) as (args' & fr' & E).
  rewrite E in Ht |- *. simpl in Ht. injection Ht as -> ->.
  unfold status_of, call_indirect. simpl. rewrite Hf, Hr. simpl. auto.
Qed.

(** C2.  Two registrations for the same operation, through any of its entry
    points, the second handing over the address [h2] of a handler: the slot
    holds [h2]; what any later series of engine calls shows is what it
    would show had the first registration never happened; every call of
    the operation in such a series is exactly one call of [h2]; and after
    any such series that has returned, a call of the operation runs the
    code at [h2], on the arguments of that call and the host state of the
    moment, and returns the status that code returns.  A series of engine
    calls contains no registration, and handlers make none. *)
Theorem last_registration_wins (r1 r2 : registration) w :
  reg_op r1 = reg_op r2 ->
  supplied dlsym r2 <> NULL ->
  slot (reg_op r2) (perform dlsym r2 (perform dlsym r1 w))
  = supplied dlsym r2 /\
  (forall cs,
     map shown (run code cs (perform dlsym r2 (perform dlsym r1 w)))
     = map shown (run code cs (perform dlsym r2 w))) /\
  (forall cs,
     Forall (fun cr =>
               op_of (fst cr) = reg_op r2 ->
               exists args fr,
                 trace (snd cr) = [EvCall (supplied dlsym r2) args fr])
            (run code cs (perform dlsym r2 (perform dlsym r1 w)))) /\
  (forall cs w' c (f : handler H),
     after code dlsym (map Engine cs)
       (perform dlsym r2 (perform dlsym r1 w)) = Some w' ->
     op_of c = reg_op r2 ->
     code (supplied dlsym r2) = Some f ->
     exists args fr,
       trace (invoke code c w') = [EvCall (supplied dlsym r2) args fr] /\
       out (invoke code c w') =
         match f args fr (host w') with
         | Some (status, x) => Returns status (with_host x w')
         | None => Undefined
         end).
Proof.
  intros Hop Hh. split; [| split; [| split]].
  - now apply slot_perform_same.
  - intros cs. apply run_ext.
    + apply Forall_forall. intros c _.
      destruct (operation_eq_dec (reg_op r2) (op_of c)) as [E | E].
      * rewrite <- E. now rewrite !slot_perform_same.
      * rewrite !slot_perform_other; congruence.
    + now rewrite !host_perform.
  - intros cs. apply run_reaches; [| assumption].
    now apply slot_perform_same.
  - intros cs w' c f Ha Hc Hf.
    apply invoke_applies_code; [| assumption | assumption].
    rewrite Hc, (after_engine_keeps_slot cs _ _ _ Ha).
    now apply slot_perform_same.
Qed.

(** C5.  Registration by name.  When [dlsym] finds the name, the Dispatch
    slot holds the address found; every Dispatch call of a later series of
    engine calls is one call of that address, with the engine's argument;
    and a Dispatch call, made at once or after any series of engine calls
    that has returned, runs the code at that address on the engine's
    argument and the host state of the moment and returns the status that
    code returns.  When [dlsym] does not find the name, the registration
    changes nothing: the process is in the state it was in, so that
    whatever was registered before is what later calls reach, and nothing
    is reported to the host. *)
Theorem by_name_registration function_name w :
  (dlsym function_name <> NULL ->
   g_dart_callback
     (signal_register_dispatch_callback_by_name dlsym function_name w)
   = dlsym function_name /\
   (forall args_address,
      trace (signal_dispatch_wrapper code args_address
               (signal_register_dispatch_callback_by_name dlsym
                  function_name w))
      = [EvCall (dlsym function_name) [Vu64 args_address] no_locals]) /\
   (forall cs,
      Forall (fun cr =>
                op_of (fst cr) = Dispatch ->
                exists args fr,
                  trace (snd cr) = [EvCall (dlsym function_name) args fr])
             (run code cs
                (signal_register_dispatch_callback_by_name dlsym
                   function_name w))) /\
   (forall args_address (f : handler H),
      code (dlsym function_name) = Some f ->
      out (signal_dispatch_wrapper code args_address
             (signal_register_dispatch_callback_by_name dlsym
                function_name w))
      = match f [Vu64 args_address] no_locals (host w) with
        | Some (status, x) =>
            Returns status
              (with_host x
                 (signal_register_dispatch_callback_by_name dlsym
                    function_name w))
        | None => Undefined
        end) /\
   (forall cs w' args_address (f : handler H),
      after code dlsym (map Engine cs)
        (signal_register_dispatch_callback_by_name dlsym function_name w)
      = Some w' ->
      code (dlsym function_name) = Some f ->
      trace (signal_dispatch_wrapper code args_address w')
      = [EvCall (dlsym function_name) [Vu64 args_address] no_locals] /\
      out (signal_dispatch_wrapper code args_address w')
      = match f [Vu64 args_address] no_locals (host w') with
        | Some (status, x) => Returns status (with_host x w')
        | None => Undefined
        end)) /\
  (dlsym function_name = NULL ->
   signal_register_dispatch_callback_by_name dlsym function_name w = w /\
   (forall cs,
      run code cs
        (signal_register_dispatch_callback_by_name dlsym function_name w)
      = run code cs w)).
Proof.
  split.
  - intros Hr.
    pose proof (slot_by_name_resolved function_name w Hr) as Hs.
    simpl in Hs.
    assert (Hd : forall w' args_address (f : handler H),
               g_dart_callback w' = dlsym function_name ->
               code (dlsym function_name) = Some f ->
               trace (signal_dispatch_wrapper code args_address w')
               = [EvCall (dlsym function_name) [Vu64 args_address] no_locals]
               /\ out (signal_dispatch_wrapper code args_address w')
                  = match f [Vu64 args_address] no_locals (host w') with
                    | Some (status, x) => Returns status (with_host x w')
                    | None => Undefined
                    end).
    { intros w' args_address f Hg Hf.
      unfold signal_dispatch_wrapper, call_indirect. rewrite Hg.
      pose proof Hr as Hr'. apply is_null_false in Hr'. rewrite Hr'.
      simpl. rewrite Hf. split; reflexivity. }
    split; [exact Hs | split; [| split; [| split]]].
    + intros args_address. unfold signal_dispatch_wrapper. rewrite Hs.
      apply is_null_false in Hr. rewrite Hr. reflexivity.
    + intros cs. apply run_reaches; assumption.
    + intros args_address f Hf.
      destruct (Hd _ args_address f Hs Hf) as [_ Ho].
      rewrite Ho. now rewrite host_by_name.
    + intros cs w' args_address f Ha Hf.
      apply Hd; [| assumption].
      pose proof (after_engine_keeps_slot cs _ _ Dispatch Ha) as Hk.
      simpl in Hk. now rewrite Hk.
  - intros Hr. rewrite (by_name_unresolved function_name w Hr).
    split; reflexivity.
Qed.

(** C6.  One callable [h], registered for Dispatch once as a function
    pointer and once as a bare address: for every argument the trampoline
    calls the same address with the same argument, returns the same status
    and leaves the same host state; and so does every later series of
    engine calls. *)
Theorem direct_and_address_equivalent h w :
  (forall args_address,
     observe (signal_dispatch_wrapper code args_address
                (signal_register_dispatch_callback h w))
     = observe (signal_dispatch_wrapper code args_address
                  (signal_register_dispatch_callback_ptr h w))) /\
  (forall cs,
     map shown (run code cs (signal_register_dispatch_callback h w))
     = map shown (run code cs (signal_register_dispatch_callback_ptr h w))).
Proof.
  split.
  - intros args_address.
    apply (observe_invoke_ext (CallDispatch args_address)); reflexivity.
  - intros cs. apply run_ext; [| reflexivity].
    apply Forall_forall. intros c _. destruct c; reflexivity.
Qed.

(** C7.  A registration entry point stores whatever address it is given,
    [NULL] included; with [NULL] stored, the wrapper of that operation
    calls nothing and returns the status [1]. *)
Theorem registration_accepts_anything e h w c :
  op_of c = entry_op e ->
  slot (entry_op e) (register e h w) = h /\
  slot (entry_op e) (register e NULL w) = NULL /\
  trace (invoke code c (register e NULL w)) = [] /\
  out (invoke code c (register e NULL w)) = Returns 1 (register e NULL w).
Proof.
  intros Hop. rewrite !slot_register_same.
  rewrite invoke_unregistered.
  - repeat split.
  - rewrite Hop. apply slot_register_same.
Qed.

(** C9.  A registration for one operation, through any entry point, leaves
    the slot of every other operation and the host state as they were (and,
    unless it is a Dispatch registration, Dispatch's second static
    [g_dart_callback_ptr] too); a wrapper of another operation, and any
    series of calls of other operations, shows the same with and without
    it. *)
Theorem registrations_isolated (r : registration) o w :
  reg_op r <> o ->
  slot o (perform dlsym r w) = slot o w /\
  (reg_op r <> Dispatch ->
   g_dart_callback_ptr (perform dlsym r w) = g_dart_callback_ptr w) /\
  host (perform dlsym r w) = host w /\
  (forall c,
     op_of c = o ->
     observe (invoke code c (perform dlsym r w))
     = observe (invoke code c w)) /\
  (forall cs,
     Forall (fun c => op_of c <> reg_op r) cs ->
     map shown (run code cs (perform dlsym r w))
     = map shown (run code cs w)).
Proof.
  intros Hne. split; [| split; [| split; [| split]]].
  - now apply slot_perform_other.
  - destruct r as [[] h | function_name]; simpl; congruence.
  - apply host_perform.
  - intros c <-. apply observe_invoke_ext.
    + now apply slot_perform_other.
    + apply host_perform.
  - intros cs Hcs. apply run_ext; [| apply host_perform].
    eapply Forall_impl; [| exact Hcs]. simpl.
    intros c Hc. apply slot_perform_other. congruence.
Qed.

(** C10.  Two states that differ at most in [g_dart_callback_ptr]: for every
    argument the trampoline shows the same in both (same call, same
    status, same host state), and so does every series of engine calls.
    Direct registration leaves [g_dart_callback_ptr] as it was; the address
    strategy and a successful lookup by name overwrite it. *)
Theorem dart_callback_ptr_irrelevant w1 w2 :
  same_except_dart_callback_ptr w1 w2 ->
  (forall args_address,
     observe (signal_dispatch_wrapper code args_address w1)
     = observe (signal_dispatch_wrapper code args_address w2)) /\
  (forall cs, map shown (run code cs w1) = map shown (run code cs w2)) /\
  (forall h,
     g_dart_callback_ptr (signal_register_dispatch_callback h w1)
     = g_dart_callback_ptr w1 /\
     g_dart_callback_ptr (signal_register_dispatch_callback_ptr h w1) = h) /\
  (forall function_name,
     dlsym function_name <> NULL ->
     g_dart_callback_ptr
       (signal_register_dispatch_callback_by_name dlsym function_name w1)
     = dlsym function_name).
Proof.
  intros [Hs Hh]. split; [| split; [| split]].
  - intros args_address.
    apply (observe_invoke_ext (CallDispatch args_address));
      [apply (Hs Dispatch) | exact Hh].
  - intros cs. apply run_ext; [| exact Hh].
    apply Forall_forall. intros c _. apply Hs.
  - intros h. split; reflexivity.
  - intros function_name Hr. apply is_null_false in Hr.
    unfold signal_register_dispatch_callback_by_name. rewrite Hr.
    reflexivity.
Qed.

(** What the handler is called with: one call, through the slot, with one
    argument per parameter of the engine's call, in the same order, each
    carrying that parameter. *)
Lemma invoke_passes_params c w :
  slot (op_of c) w <> NULL ->
  exists args fr,
    invoke code c w = call_indirect code (slot (op_of c) w) args fr w /\
    Forall2 (fun a v => reaches fr a v = true) (params c) args.
Proof.
  intros Hs. apply is_null_false in Hs.
  destruct c; simpl in *; unfold_wrappers; rewrite Hs;
    eexists; eexists; (split; [reflexivity |]);
    repeat constructor; simpl; apply Z.eqb_refl.
Qed.

End Properties.

(** C4.  With a handler registered, a wrapper calls it once with one argument
    per parameter of the engine's call, in the engine's order: a pointer
    parameter as the same pointer, a by-value wrapper struct as the address
    of an object holding the same [raw] pointer, a scalar as the same
    scalar; the store context is the first argument; and what the wrapper
    returns is what the handler's code, applied to these arguments,
    returns.  IsTrustedIdentity hands the direction over as its fourth
    argument and returns what the handler's code returns for it.  A
    LoadSession handler that records what it receives, registered in a
    freshly loaded bridge and called with [ctx] and [addr], has recorded
    [(ctx, addr)] when the wrapper returns its [0].  An IsTrustedIdentity
    handler that answers [1] for the direction [2] and [0] otherwise has
    recorded the direction it was called with, and the wrapper returns its
    answer. *)
Theorem arguments_forwarded :
  (forall (H : Type) (code : ptr -> option (handler H)) (c : invocation)
          (w : world H),
     slot (op_of c) w <> NULL ->
     exists args fr,
       trace (invoke code c w) = [EvCall (slot (op_of c) w) args fr] /\
       Forall2 (fun a v => reaches fr a v = true) (params c) args /\
       (forall store_ctx,
          store_ctx_of c = Some store_ctx ->
          hd_error args = Some (Vptr store_ctx)) /\
       (forall f : handler H,
          code (slot (op_of c) w) = Some f ->
          out (invoke code c w)
          = match f args fr (host w) with
            | Some (status, x) => Returns status (with_host x w)
            | None => Undefined
            end)) /\
  (forall (H : Type) (code : ptr -> option (handler H))
          (store_ctx : ptr) (address : SignalConstPointerProtocolAddress)
          (public_key : SignalConstPointerPublicKey) (direction : Z)
          (w : world H),
     g_is_trusted_identity_callback w <> NULL ->
     exists x y fr,
       trace (spots_is_trusted_identity_wrapper code store_ctx address
                public_key direction w)
       = [EvCall (g_is_trusted_identity_callback w)
            [Vptr store_ctx; Vaddrof x; Vaddrof y; Vuint direction] fr] /\
       deref fr x = Some (raw address) /\
       deref fr y = Some (raw public_key) /\
       (forall f : handler H,
          code (g_is_trusted_identity_callback w) = Some f ->
          out (spots_is_trusted_identity_wrapper code store_ctx address
                 public_key direction w)
          = match f [Vptr store_ctx; Vaddrof x; Vaddrof y; Vuint direction]
                    fr (host w) with
            | Some (status, h') => Returns status (with_host h' w)
            | None => Undefined
            end)) /\
  (forall (code : ptr -> option (handler seen)) (h ctx recordp addr : ptr)
          (log : seen),
     h <> NULL ->
     code h = Some recording_handler ->
     trace (spots_load_session_wrapper code ctx recordp {| raw := addr |}
              (spots_register_load_session_callback h (loaded log)))
     = [EvCall h [Vptr ctx; Vptr recordp; Vaddrof L_address]
          {| fr_address := Some addr;
             fr_record := None;
             fr_public_key := None |}] /\
     out (spots_load_session_wrapper code ctx recordp {| raw := addr |}
            (spots_register_load_session_callback h (loaded log)))
     = Returns 0
         (with_host ((ctx, addr) :: log)
            (spots_register_load_session_callback h (loaded log)))) /\
  (forall (code : ptr -> option (handler seen)) (h ctx : ptr)
          (address : SignalConstPointerProtocolAddress)
          (public_key : SignalConstPointerPublicKey) (direction : Z)
          (log : seen),
     h <> NULL ->
     code h = Some direction_handler ->
     out (spots_is_trusted_identity_wrapper code ctx address public_key
            direction
            (spots_register_is_trusted_identity_callback h (loaded log)))
     = Returns (if direction =? 2 then 1 else 0)
         (with_host ((ctx, direction) :: log)
            (spots_register_is_trusted_identity_callback h (loaded log)))).
Proof.
  split; [| split; [| split]].
  - intros H code c w Hs.
    destruct (invoke_passes_params code c w Hs) as (args & fr & E & Hp).
    exists args, fr. rewrite E. split; [reflexivity |].
    split; [exact Hp |]. split.
    + intros store_ctx Hc.
      destruct c; simpl in Hc; inversion Hc; subst;
        inversion Hp as [| a v ? ? Hr ?]; subst;
        destruct v; simpl in Hr; try discriminate;
        apply Z.eqb_eq in Hr; subst; reflexivity.
    + intros f Hf. unfold call_indirect. simpl. now rewrite Hf.
  - intros H code store_ctx address public_key direction w Hs.
    apply is_null_false in Hs.
    unfold spots_is_trusted_identity_wrapper. rewrite Hs.
    exists L_address, L_public_key. eexists.
    split; [reflexivity |]. split; [reflexivity |].
    split; [reflexivity |].
    intros f Hf. unfold call_indirect. simpl. now rewrite Hf.
  - intros code h ctx recordp addr log Hh Hc.
    apply is_null_false in Hh.
    unfold spots_load_session_wrapper, call_indirect. simpl.
    rewrite Hh, Hc. split; reflexivity.
  - intros code h ctx address public_key direction log Hh Hc.
    apply is_null_false in Hh.
    unfold spots_is_trusted_identity_wrapper, call_indirect. simpl.
    rewrite Hh, Hc. reflexivity.
Qed.

(** ** The scenarios of the specification, run *)

(** IsTrustedIdentity with a handler that answers [1] for direction [2]:
    the wrapper returns [1]; for direction [0] the handler sees [0] and the
    wrapper returns the handler's [0]. *)
Example is_trusted_identity_scenario :
  let w := spots_register_is_trusted_identity_callback 16384
             (loaded ([] : seen)) in
  out (spots_is_trusted_identity_wrapper demo_code 7 {| raw := 11 |}
         {| raw := 13 |} 2 w)
  = Returns 1 (with_host [(7, 2)] w) /\
  out (spots_is_trusted_identity_wrapper demo_code 7 {| raw := 11 |}
         {| raw := 13 |} 0 w)
  = Returns 0 (with_host [(7, 0)] w).
Proof. split; reflexivity. Qed.

(** StoreSession with no handler registered: status [1], nothing changed. *)
Example store_session_unregistered_scenario :
  spots_store_session_wrapper demo_code 7 {| raw := 11 |} {| raw := 13 |}
    (loaded ([] : seen))
  = {| trace := []; out := Returns 1 (loaded []) |}.
Proof. reflexivity. Qed.

(** The same call made twice reaches the handler twice, with the same
    arguments: nothing is cached between calls. *)
Example called_twice_scenario :
  let w := spots_register_load_session_callback 4096 (loaded ([] : seen)) in
  let c := CallLoadSession 7 9 {| raw := 11 |} in
  map (fun cr => (trace (snd cr), host_after (snd cr)))
      (run demo_code [c; c] w)
  = [([EvCall 4096 [Vptr 7; Vptr 9; Vaddrof L_address]
         {| fr_address := Some 11; fr_record := None;
            fr_public_key := None |}],
      Some [(7, 11)]);
     ([EvCall 4096 [Vptr 7; Vptr 9; Vaddrof L_address]
         {| fr_address := Some 11; fr_record := None;
            fr_public_key := None |}],
      Some [(7, 11); (7, 11)])].
Proof. reflexivity. Qed.

(** ** The theorems at concrete inputs *)

Lemma unregistered_returns_sentinel_witness :
  slot (op_of (CallStoreSession 7 {| raw := 11 |} {| raw := 13 |}))
    (loaded ([] : seen)) = NULL /\
  (trace (invoke demo_code (CallStoreSession 7 {| raw := 11 |}
                              {| raw := 13 |}) (loaded ([] : seen))) = [] /\
   out (invoke demo_code (CallStoreSession 7 {| raw := 11 |}
                            {| raw := 13 |}) (loaded ([] : seen)))
   = Returns 1 (loaded [])).
Proof.
  split; [reflexivity |].
  apply (unregistered_returns_sentinel demo_code
           (CallStoreSession 7 {| raw := 11 |} {| raw := 13 |})
           (loaded ([] : seen))).
  reflexivity.
Defined.

Lemma last_registration_wins_witness :
  reg_op (ByAddress RegDispatchPtr 12288)
  = reg_op (ByName "spots_dart_dispatch") /\
  supplied demo_dlsym (ByName "spots_dart_dispatch") <> NULL /\
  slot Dispatch
    (perform demo_dlsym (ByName "spots_dart_dispatch")
       (perform demo_dlsym (ByAddress RegDispatchPtr 12288)
          (loaded ([] : seen)))) = 8192 /\
  (forall cs,
     Forall (fun cr =>
               op_of (fst cr) = Dispatch ->
               exists args fr, trace (snd cr) = [EvCall 8192 args fr])
            (run demo_code cs
               (perform demo_dlsym (ByName "spots_dart_dispatch")
                  (perform demo_dlsym (ByAddress RegDispatchPtr 12288)
                     (loaded ([] : seen)))))) /\
  out (invoke demo_code (CallDispatch 42)
         (perform demo_dlsym (ByName "spots_dart_dispatch")
            (perform demo_dlsym (ByAddress RegDispatchPtr 12288)
               (loaded ([] : seen)))))
  = Returns 1
      (perform demo_dlsym (ByName "spots_dart_dispatch")
         (perform demo_dlsym (ByAddress RegDispatchPtr 12288)
            (loaded ([] : seen)))).
Proof.
  assert (Hn : supplied demo_dlsym (ByName "spots_dart_dispatch") <> NULL)
    by (vm_compute; discriminate).
  destruct (last_registration_wins demo_code demo_dlsym
              (ByAddress RegDispatchPtr 12288) (ByName "spots_dart_dispatch")
              (loaded ([] : seen)) eq_refl Hn)
    as (Hslot & _ & Hrun & Hout).
  split; [reflexivity |].
  split; [exact Hn |].
  split; [exact Hslot |].
  split; [exact Hrun |].
  destruct (Hout [] _ (CallDispatch 42) (constant_handler 1)
              eq_refl eq_refl eq_refl) as (args & fr & _ & Ho).
  exact Ho.
Defined.

Lemma status_forwarded_verbatim_witness :
  slot (op_of (CallIsTrustedIdentity 7 {| raw := 11 |} {| raw := 13 |} 2))
    (register RegIsTrustedIdentity 16384 (loaded ([] : seen))) <> NULL /\
  demo_code
    (slot (op_of (CallIsTrustedIdentity 7 {| raw := 11 |} {| raw := 13 |} 2))
       (register RegIsTrustedIdentity 16384 (loaded ([] : seen))))
  = Some direction_handler /\
  exists args fr,
    trace (invoke demo_code
             (CallIsTrustedIdentity 7 {| raw := 11 |} {| raw := 13 |} 2)
             (register RegIsTrustedIdentity 16384 (loaded ([] : seen))))
    = [EvCall 16384 args fr] /\
    out (invoke demo_code
           (CallIsTrustedIdentity 7 {| raw := 11 |} {| raw := 13 |} 2)
           (register RegIsTrustedIdentity 16384 (loaded ([] : seen))))
    = match direction_handler args fr [] with
      | Some (status, x) =>
          Returns status
            (with_host x
               (register RegIsTrustedIdentity 16384 (loaded ([] : seen))))
      | None => Undefined
      end /\
    forall status x,
      direction_handler args fr [] = Some (status, x) ->
      status_of (invoke demo_code
                   (CallIsTrustedIdentity 7 {| raw := 11 |} {| raw := 13 |} 2)
                   (register RegIsTrustedIdentity 16384
                      (loaded ([] : seen))))
      = Some status.
Proof.
  split; [vm_compute; discriminate |].
  split; [reflexivity |].
  apply (status_forwarded_verbatim demo_code
           (CallIsTrustedIdentity 7 {| raw := 11 |} {| raw := 13 |} 2)
           (register RegIsTrustedIdentity 16384 (loaded ([] : seen)))
           direction_handler).
  - vm_compute. discriminate.
  - reflexivity.
Defined.

Lemma arguments_forwarded_witness :
  (exists args fr,
     trace (invoke demo_code
              (CallStoreSession 7 {| raw := 11 |} {| raw := 13 |})
              (register RegStoreSession 12288 (loaded ([] : seen))))
     = [EvCall 12288 args fr] /\
     Forall2 (fun a v => reaches fr a v = true)
       [PPtr 7; PStruct 11; PStruct 13] args /\
     hd_error args = Some (Vptr 7) /\
     out (invoke demo_code
            (CallStoreSession 7 {| raw := 11 |} {| raw := 13 |})
            (register RegStoreSession 12288 (loaded ([] : seen))))
     = Returns 0 (register RegStoreSession 12288 (loaded ([] : seen)))) /\
  (exists x y fr,
     trace (spots_is_trusted_identity_wrapper demo_code 7 {| raw := 11 |}
              {| raw := 13 |} 2
              (register RegIsTrustedIdentity 16384 (loaded ([] : seen))))
     = [EvCall 16384 [Vptr 7; Vaddrof x; Vaddrof y; Vuint 2] fr] /\
     deref fr x = Some 11 /\ deref fr y = Some 13 /\
     out (spots_is_trusted_identity_wrapper demo_code 7 {| raw := 11 |}
            {| raw := 13 |} 2
            (register RegIsTrustedIdentity 16384 (loaded ([] : seen))))
     = Returns 1
         (with_host [(7, 2)]
            (register RegIsTrustedIdentity 16384 (loaded ([] : seen))))) /\
  (trace (spots_load_session_wrapper demo_code 7 9 {| raw := 11 |}
            (spots_register_load_session_callback 4096 (loaded [])))
   = [EvCall 4096 [Vptr 7; Vptr 9; Vaddrof L_address]
        {| fr_address := Some 11; fr_record := None;
           fr_public_key := None |}] /\
   out (spots_load_session_wrapper demo_code 7 9 {| raw := 11 |}
          (spots_register_load_session_callback 4096 (loaded [])))
   = Returns 0
       (with_host [(7, 11)]
          (spots_register_load_session_callback 4096 (loaded [])))) /\
  out (spots_is_trusted_identity_wrapper demo_code 7 {| raw := 11 |}
         {| raw := 13 |} 0
         (spots_register_is_trusted_identity_callback 16384 (loaded [])))
  = Returns 0
      (with_host [(7, 0)]
         (spots_register_is_trusted_identity_callback 16384 (loaded []))).
Proof.
  destruct arguments_forwarded as (Hall & Htrust & Hload & Hdir).
  split; [| split; [| split]].
  - destruct (Hall seen demo_code
                (CallStoreSession 7 {| raw := 11 |} {| raw := 13 |})
                (register RegStoreSession 12288 (loaded ([] : seen))))
      as (args & fr & Ht & Hp & Hc & Ho).
    { vm_compute. discriminate. }
    exists args, fr. split; [exact Ht |]. split; [exact Hp |].
    split; [exact (Hc 7 eq_refl) |].
    exact (Ho (constant_handler 0) eq_refl).
  - destruct (Htrust seen demo_code 7 {| raw := 11 |} {| raw := 13 |} 2
                (register RegIsTrustedIdentity 16384 (loaded ([] : seen))))
      as (x & y & fr & Ht & Hx & Hy & Ho).
    { vm_compute. discriminate. }
    exists x, y, fr. split; [exact Ht |]. split; [exact Hx |].
    split; [exact Hy |].
    exact (Ho direction_handler eq_refl).
  - apply (Hload demo_code 4096 7 9 11 []).
    + vm_compute. discriminate.
    + reflexivity.
  - apply (Hdir demo_code 16384 7 {| raw := 11 |} {| raw := 13 |} 0 []).
    + vm_compute. discriminate.
    + reflexivity.
Defined.

Lemma by_name_registration_witness :
  demo_dlsym "spots_dart_dispatch" <> NULL /\
  demo_dlsym "no_such_symbol" = NULL /\
  g_dart_callback
    (signal_register_dispatch_callback_by_name demo_dlsym
       "spots_dart_dispatch" (loaded ([] : seen))) = 8192 /\
  out (signal_dispatch_wrapper demo_code 42
         (signal_register_dispatch_callback_by_name demo_dlsym
            "spots_dart_dispatch" (loaded ([] : seen))))
  = Returns 1
      (signal_register_dispatch_callback_by_name demo_dlsym
         "spots_dart_dispatch" (loaded ([] : seen))) /\
  signal_register_dispatch_callback_by_name demo_dlsym "no_such_symbol"
    (signal_register_dispatch_callback 12288 (loaded ([] : seen)))
  = signal_register_dispatch_callback 12288 (loaded ([] : seen)).
Proof.
  assert (Hn : demo_dlsym "spots_dart_dispatch" <> NULL)
    by (vm_compute; discriminate).
  destruct (proj1 (by_name_registration demo_code demo_dlsym
                     "spots_dart_dispatch" (loaded ([] : seen))) Hn)
    as (Hslot & _ & _ & Hout & _).
  split; [exact Hn |].
  split; [reflexivity |].
  split; [exact Hslot |].
  split; [exact (Hout 42 (constant_handler 1) eq_refl) |].
  apply (by_name_registration demo_code demo_dlsym "no_such_symbol"
           (signal_register_dispatch_callback 12288 (loaded ([] : seen)))).
  reflexivity.
Defined.

Lemma registration_accepts_anything_witness :
  op_of (CallDispatch 42) = entry_op RegDispatchPtr /\
  (slot Dispatch
     (register RegDispatchPtr 8192
        (signal_register_dispatch_callback 12288 (loaded ([] : seen))))
   = 8192 /\
   slot Dispatch
     (register RegDispatchPtr NULL
        (signal_register_dispatch_callback 12288 (loaded ([] : seen))))
   = NULL /\
   trace (invoke demo_code (CallDispatch 42)
            (register RegDispatchPtr NULL
               (signal_register_dispatch_callback 12288
                  (loaded ([] : seen))))) = [] /\
   out (invoke demo_code (CallDispatch 42)
          (register RegDispatchPtr NULL
             (signal_register_dispatch_callback 12288 (loaded ([] : seen)))))
   = Returns 1
       (register RegDispatchPtr NULL
          (signal_register_dispatch_callback 12288 (loaded ([] : seen))))).
Proof.
  split; [reflexivity |].
  apply (registration_accepts_anything demo_code RegDispatchPtr 8192
           (signal_register_dispatch_callback 12288 (loaded ([] : seen)))
           (CallDispatch 42)).
  reflexivity.
Defined.

Lemma sentinel_ambiguous_witness :
  slot Dispatch (register RegDispatch 8192 (loaded ([] : seen))) <> NULL /\
  demo_code (slot Dispatch (register RegDispatch 8192 (loaded ([] : seen))))
  = Some (constant_handler 1) /\
  constant_handler 1 [Vu64 42] no_locals [] = Some (1, []) /\
  slot Dispatch (loaded ([] : seen)) = NULL /\
  status_of (invoke demo_code (CallDispatch 42)
               (register RegDispatch 8192 (loaded ([] : seen)))) = Some 1 /\
  status_of (invoke demo_code (CallDispatch 42) (loaded ([] : seen)))
  = Some 1 /\
  status_of (invoke demo_code (CallDispatch 42)
               (register RegDispatch 8192 (loaded ([] : seen))))
  = status_of (invoke demo_code (CallDispatch 42) (loaded ([] : seen))).
Proof.
  split; [vm_compute; discriminate |].
  split; [reflexivity |].
  split; [reflexivity |].
  split; [reflexivity |].
  apply (sentinel_ambiguous demo_code (CallDispatch 42)
           (register RegDispatch 8192 (loaded ([] : seen)))
           (loaded ([] : seen)) (constant_handler 1)
           [Vu64 42] no_locals []).
  - vm_compute. discriminate.
  - reflexivity.
  - reflexivity.
  - reflexivity.
  - reflexivity.
Defined.

Lemma registrations_isolated_witness :
  reg_op (ByAddress RegLoadSession 4096) <> Dispatch /\
  slot Dispatch
    (perform demo_dlsym (ByAddress RegLoadSession 4096)
       (signal_register_dispatch_callback 8192 (loaded ([] : seen))))
  = 8192.
Proof.
  split; [discriminate |].
  apply (registrations_isolated demo_code demo_dlsym
           (ByAddress RegLoadSession 4096) Dispatch
           (signal_register_dispatch_callback 8192 (loaded ([] : seen)))).
  discriminate.
Defined.

Lemma dart_callback_ptr_irrelevant_witness :
  same_except_dart_callback_ptr
    (signal_register_dispatch_callback 8192 (loaded ([] : seen)))
    (signal_register_dispatch_callback_ptr 8192 (loaded ([] : seen))) /\
  g_dart_callback_ptr
    (signal_register_dispatch_callback 8192 (loaded ([] : seen)))
  <> g_dart_callback_ptr
       (signal_register_dispatch_callback_ptr 8192 (loaded ([] : seen))) /\
  forall args_address,
    observe (signal_dispatch_wrapper demo_code args_address
               (signal_register_dispatch_callback 8192 (loaded ([] : seen))))
    = observe (signal_dispatch_wrapper demo_code args_address
                 (signal_register_dispatch_callback_ptr 8192
                    (loaded ([] : seen)))).
Proof.
  assert (Hsame : same_except_dart_callback_ptr
            (signal_register_dispatch_callback 8192 (loaded ([] : seen)))
            (signal_register_dispatch_callback_ptr 8192
               (loaded ([] : seen)))).
  { split; [intros o; destruct o; reflexivity | reflexivity]. }
  split; [exact Hsame |].
  split; [vm_compute; discriminate |].
  apply (dart_callback_ptr_irrelevant demo_code demo_dlsym
           (signal_register_dispatch_callback 8192 (loaded ([] : seen)))
           (signal_register_dispatch_callback_ptr 8192 (loaded ([] : seen)))
           Hsame).
Defined.

(** ** Further properties of the registry *)

Section RegistryAlgebra.

Context {H : Type}.
Variable code : ptr -> option (handler H).
Variable dlsym : string -> ptr.

Implicit Types (w : world H) (c : invocation) (e : entry) (o : operation)
  (h : ptr) (r : registration).

(** X1.  Every registration entry point is idempotent: made twice in a row
    with the same argument, it leaves the state the first one left. *)
Theorem registration_idempotent r w :
  perform dlsym r (perform dlsym r w) = perform dlsym r w.
Proof.
  destruct r as [[] h | function_name]; simpl; try reflexivity.
  unfold signal_register_dispatch_callback_by_name.
  destruct (negb (is_null (dlsym function_name))); reflexivity.
Qed.

(** X2.  Registrations for two different operations commute: either order
    leaves the same state. *)
Theorem registrations_commute (r1 r2 : registration) w :
  reg_op r1 <> reg_op r2 ->
  perform dlsym r1 (perform dlsym r2 w)
  = perform dlsym r2 (perform dlsym r1 w).
Proof.
  destruct r1 as [[] h1 | n1], r2 as [[] h2 | n2]; simpl; intros Hne;
    try congruence; try reflexivity;
    unfold signal_register_dispatch_callback_by_name;
    destruct (negb (is_null (dlsym _))); reflexivity.
Qed.

(** X3.  A second registration through the same entry point wipes out the
    first: the state is the one the second alone would leave.  The address
    strategy wipes out an earlier direct registration in the same way.  A
    direct registration does not wipe out an earlier registration by
    address: the state it leaves is the one it would have left alone only
    when the earlier address was already in [g_dart_callback_ptr]. *)
Theorem reregistration_overwrites e (h1 h2 : ptr) w :
  register e h2 (register e h1 w) = register e h2 w /\
  signal_register_dispatch_callback_ptr h2
    (signal_register_dispatch_callback h1 w)
  = signal_register_dispatch_callback_ptr h2 w /\
  (signal_register_dispatch_callback h2
     (signal_register_dispatch_callback_ptr h1 w)
   = signal_register_dispatch_callback h2 w
   <-> h1 = g_dart_callback_ptr w).
Proof.
  split; [destruct e; reflexivity |].
  split; [reflexivity |].
  split.
  - intros E. apply (f_equal g_dart_callback_ptr) in E. exact E.
  - intros ->. reflexivity.
Qed.

(** X4.  Registration by a name that [dlsym] finds is registration of the
    address found through the address strategy: both leave the same
    state. *)
Theorem by_name_is_address_strategy function_name w :
  dlsym function_name <> NULL ->
  signal_register_dispatch_callback_by_name dlsym function_name w
  = signal_register_dispatch_callback_ptr (dlsym function_name) w.
Proof.
  intros Hr. apply is_null_false in Hr.
  unfold signal_register_dispatch_callback_by_name. rewrite Hr. reflexivity.
Qed.

(** X5.  A slot that holds a handler is emptied by one thing only: [NULL]
    handed to an address-taking entry point of its operation.  No
    registration for another operation and no registration by name, found
    or not, empties it. *)
Theorem only_null_by_address_clears r o w :
  slot o (perform dlsym r w) = NULL ->
  slot o w = NULL \/ exists e, r = ByAddress e NULL /\ entry_op e = o.
Proof.
  intros Hs.
  destruct (operation_eq_dec (reg_op r) o) as [E | E].
  - destruct r as [e h | function_name]; simpl in *.
    + right. exists e. subst o. rewrite slot_register_same in Hs.
      subst h. split; reflexivity.
    + left. subst o.
      destruct (Z.eq_dec (dlsym function_name) NULL) as [Hn | Hn].
      * now rewrite (by_name_unresolved dlsym function_name w Hn) in Hs.
      * rewrite (slot_by_name_resolved dlsym function_name w Hn) in Hs.
        contradiction.
  - left. now rewrite (slot_perform_other dlsym r o w E) in Hs.
Qed.

End RegistryAlgebra.

(** ** Further properties of the wrappers *)

Section WrapperProperties.

Context {H : Type}.
Variable code : ptr -> option (handler H).
Variable dlsym : string -> ptr.

Implicit Types (w : world H) (c : invocation) (e : entry) (o : operation)
  (h : ptr) (r : registration).

(** X8.  The handler call a wrapper makes, that is the address called, the
    arguments and the parameter objects behind them, is fixed by the
    engine's call and by the content of the wrapper's own slot: in two
    states whose slot for the operation holds the same address the wrapper
    makes the same call, whatever the host state and the other statics
    are. *)
Theorem handler_call_fixed_by_slot c w1 w2 :
  slot (op_of c) w1 = slot (op_of c) w2 ->
  trace (invoke code c w1) = trace (invoke code c w2).
Proof.
  intros Hs.
  destruct (Z.eq_dec (slot (op_of c) w2) NULL) as [Hn | Hn].
  - rewrite !invoke_unregistered by congruence. reflexivity.
  - assert (Hm : slot (op_of c) w1 <> NULL) by congruence.
    destruct c; simpl in *; apply is_null_false in Hn, Hm;
      unfold spots_load_session_wrapper, spots_store_session_wrapper,
        spots_get_identity_key_pair_wrapper,
        spots_get_local_registration_id_wrapper,
        spots_save_identity_key_wrapper, spots_get_identity_key_wrapper,
        spots_is_trusted_identity_wrapper, signal_dispatch_wrapper;
      rewrite Hn, Hm, Hs; reflexivity.
Qed.

(** X6.  A status other than [1] is never made up by the bridge: when a
    wrapper returns one, a handler is registered, it was called once, and
    that status is what it returned. *)
Theorem other_status_is_the_handlers c w (status : Z) :
  status_of (invoke code c w) = Some status ->
  status <> 1 ->
  slot (op_of c) w <> NULL /\
  exists f args fr x,
    code (slot (op_of c) w) = Some f /\
    trace (invoke code c w) = [EvCall (slot (op_of c) w) args fr] /\
    f args fr (host w) = Some (status, x).
Proof.
  intros Hst Hne.
  destruct (Z.eq_dec (slot (op_of c) w) NULL) as [Hs | Hs].
  - rewrite (invoke_unregistered code c w Hs) in Hst.
    unfold status_of in Hst. simpl in Hst. congruence.
  - split; [exact Hs |].
    destruct (invoke_registered code c w Hs) as (args & fr & E).
    rewrite E in Hst |- *. unfold status_of, call_indirect in Hst.
    simpl in Hst.
    destruct (code (slot (op_of c) w)) as [f |]; [| discriminate].
    destruct (f args fr (host w)) as [[s x] |] eqn:Ef; [| discriminate].
    injection Hst as ->. exists f, args, fr, x. repeat split. exact Ef.
Qed.

(** X7.  A wrapper fails to return in exactly one situation: its slot holds
    an address, and either nothing callable lives there or the handler
    that lives there does not return. *)
Theorem wrapper_undefined_iff c w :
  out (invoke code c w) = Undefined <->
  slot (op_of c) w <> NULL /\
  exists args fr,
    trace (invoke code c w) = [EvCall (slot (op_of c) w) args fr] /\
    (code (slot (op_of c) w) = None \/
     exists f, code (slot (op_of c) w) = Some f /\
               f args fr (host w) = None).
Proof.
  destruct (Z.eq_dec (slot (op_of c) w) NULL) as [Hs | Hs].
  - rewrite (invoke_unregistered code c w Hs). simpl. split.
    + discriminate.
    + intros [Hn _]. contradiction.
  - destruct (invoke_registered code c w Hs) as (args & fr & E).
    rewrite E. unfold call_indirect. simpl. split.
    + intros Hu. split; [exact Hs |]. exists args, fr. split; [reflexivity |].
      destruct (code (slot (op_of c) w)) as [f |]; [| now left].
      right. exists f. split; [reflexivity |].
      destruct (f args fr (host w)) as [[s x] |]; [discriminate | reflexivity].
    + intros (_ & args' & fr' & Ht & Hc). injection Ht as <- <-.
      destruct Hc as [-> | (f & -> & ->)]; reflexivity.
Qed.

(** X9.  While the operations called have no handler, a series of engine
    calls of any length returns the status [1] for each call, calls
    nothing and changes nothing. *)
Theorem unregistered_series cs : forall w,
  Forall (fun c => slot (op_of c) w = NULL) cs ->
  run code cs w = map (fun c => (c, not_registered w)) cs.
Proof.
  induction cs as [| c cs IH]; intros w Hs; [reflexivity |].
  inversion Hs as [| ? ? Hc Hcs]; subst. simpl.
  rewrite (invoke_unregistered code c w Hc). simpl.
  now rewrite IH.
Qed.

End WrapperProperties.

(** ** Properties of histories *)

Section HistoryProperties.

Context {H : Type}.
Variable code : ptr -> option (handler H).
Variable dlsym : string -> ptr.

Implicit Types (w : world H) (c : invocation) (o : operation)
  (r : registration) (acts : list action).

(** Where the content of a slot comes from: it is what the slot held at the
    start, or what a registration of the history for that operation
    supplied. *)
Lemma after_slot_origin acts : forall w0 w o,
  after code dlsym acts w0 = Some w ->
  slot o w = slot o w0 \/
  exists r, In (Host r) acts /\ reg_op r = o /\ supplied dlsym r = slot o w.
Proof.
  induction acts as [| [r | c] acts IH]; intros w0 w o Ha; simpl in Ha.
  - injection Ha as <-. now left.
  - destruct (IH _ _ o Ha) as [E | (r' & Hin & Hop & Hsup)].
    + destruct (operation_eq_dec (reg_op r) o) as [Ho | Ho].
      * destruct r as [e h | function_name]; simpl in *.
        -- right. exists (ByAddress e h). split; [now left |].
           split; [exact Ho |]. simpl. rewrite E. subst o.
           symmetry. apply slot_register_same.
        -- destruct (Z.eq_dec (dlsym function_name) NULL) as [Hn | Hn].
           ++ left. rewrite E.
              now rewrite (by_name_unresolved dlsym function_name w0 Hn).
           ++ right. exists (ByName function_name). split; [now left |].
              split; [exact Ho |]. simpl. rewrite E. subst o.
              symmetry. now apply slot_by_name_resolved.
      * left. rewrite E. now apply slot_perform_other.
    + right. exists r'. split; [now right |]. now split.
  - destruct (out (invoke code c w0)) as [s w1 |] eqn:E; [| discriminate].
    destruct (IH _ _ o Ha) as [E' | (r' & Hin & Hop & Hsup)].
    + left. rewrite E'. apply (invoke_keeps_slot code c w0 s w1 o E).
    + right. exists r'. split; [now right |]. now split.
Qed.

(** X10.  In any history that starts with the freshly loaded bridge, every
    indirect call a wrapper makes goes to a non-null address that a
    registration earlier in the history supplied for that wrapper's own
    operation: the bridge calls no address of its own invention and no
    handler registered for another operation. *)
Theorem calls_go_to_registered acts (x : H) w c fp args fr :
  after code dlsym acts (loaded x) = Some w ->
  In (EvCall fp args fr) (trace (invoke code c w)) ->
  fp <> NULL /\
  exists r, In (Host r) acts /\ reg_op r = op_of c /\ supplied dlsym r = fp.
Proof.
  intros Ha Hin.
  destruct (Z.eq_dec (slot (op_of c) w) NULL) as [Hs | Hs].
  - rewrite (invoke_unregistered code c w Hs) in Hin. destruct Hin.
  - destruct (invoke_registered code c w Hs) as (args' & fr' & E).
    rewrite E in Hin. simpl in Hin. destruct Hin as [Hev | []].
    injection Hev as <- _ _. split; [exact Hs |].
    destruct (after_slot_origin acts _ _ (op_of c) Ha)
      as [E0 | Hr]; [| exact Hr].
    rewrite loaded_unregistered in E0. contradiction.
Qed.

Lemma after_keeps_mirror acts : forall w0 w,
  after code dlsym acts w0 = Some w ->
  forallb (fun a => negb (is_direct a)) acts = true ->
  g_dart_callback_ptr w0 = g_dart_callback w0 ->
  g_dart_callback_ptr w = g_dart_callback w.
Proof.
  induction acts as [| [r | c] acts IH]; intros w0 w Ha Hd Hm;
    simpl in Ha, Hd.
  - now injection Ha as <-.
  - apply andb_prop in Hd. destruct Hd as [Hr Hd].
    apply (IH _ _ Ha Hd).
    destruct r as [[] h | function_name]; simpl in *;
      try exact Hm; try reflexivity; try discriminate.
    unfold signal_register_dispatch_callback_by_name.
    destruct (negb (is_null (dlsym function_name))); [reflexivity | exact Hm].
  - destruct (out (invoke code c w0)) as [s w1 |] eqn:E; [| discriminate].
    apply (IH _ _ Ha Hd).
    rewrite (invoke_keeps_statics code c w0 s w1 E). exact Hm.
Qed.

(** X11.  As long as the host never uses the direct strategy, the two
    Dispatch statics hold the same address after every history that starts
    with the freshly loaded bridge.  A direct registration keeps them equal
    only when it hands over the address [g_dart_callback_ptr] already
    holds. *)
Theorem dart_callback_ptr_mirrors acts (x : H) w :
  after code dlsym acts (loaded x) = Some w ->
  forallb (fun a => negb (is_direct a)) acts = true ->
  g_dart_callback_ptr w = g_dart_callback w /\
  forall h,
    g_dart_callback_ptr (signal_register_dispatch_callback h w)
    = g_dart_callback (signal_register_dispatch_callback h w)
    <-> h = g_dart_callback_ptr w.
Proof.
  intros Ha Hd. split.
  - apply (after_keeps_mirror acts _ _ Ha Hd). reflexivity.
  - intros h. simpl. split; intros E; now rewrite E.
Qed.

(** X15.  The statics behave as one last-write-wins cell per operation:
    after any history, the slot of an operation holds what the last
    registration for it that took effect supplied, and what it held before
    the history when there was none. *)
Theorem slot_is_last_supplied acts : forall w0 w o,
  after code dlsym acts w0 = Some w ->
  slot o w = last_supplied dlsym o acts (slot o w0).
Proof.
  induction acts as [| [r | c] acts IH]; intros w0 w o Ha; simpl in Ha.
  - now injection Ha as <-.
  - rewrite (IH _ _ o Ha). simpl. f_equal.
    destruct (operation_eq_dec (reg_op r) o) as [Ho | Ho].
    + destruct r as [e h | function_name]; simpl in *.
      * subst o. apply slot_register_same.
      * subst o.
        destruct (Z.eq_dec (dlsym function_name) NULL) as [Hn | Hn].
        -- rewrite (by_name_unresolved dlsym function_name w0 Hn).
           apply is_null_true in Hn. now rewrite Hn.
        -- rewrite (slot_by_name_resolved dlsym function_name w0 Hn).
           apply is_null_false in Hn. now rewrite Hn.
    + now apply slot_perform_other.
  - destruct (out (invoke code c w0)) as [s w1 |] eqn:E; [| discriminate].
    rewrite (IH _ _ o Ha). simpl. f_equal.
    apply (invoke_keeps_slot code c w0 s w1 o E).
Qed.

End HistoryProperties.

(** ** The exported trampoline address *)

Section LinkedProperties.

Context {H : Type}.
Variable code : ptr -> option (handler H).
Variable tramp : ptr.

(** X14.  Once [g_dart_callback] holds the address that
    [signal_get_dispatch_function_ptr] returns, a Dispatch call never
    returns: the trampoline calls itself without end, whatever the
    recursion bound. *)
Theorem self_registration_diverges (fuel : nat) (args_address : Z)
    (w : world H) :
  signal_get_dispatch_function_ptr tramp <> NULL ->
  g_dart_callback w = signal_get_dispatch_function_ptr tramp ->
  signal_dispatch_wrapper_linked code tramp fuel args_address w = None.
Proof.
  unfold signal_get_dispatch_function_ptr. intros Hn Hg.
  induction fuel as [| fuel IH]; [reflexivity |].
  simpl. rewrite IH, Hg.
  apply is_null_false in Hn. rewrite Hn.
  now rewrite Z.eqb_refl.
Qed.

End LinkedProperties.

(** ** The further properties at concrete inputs *)

Lemma registrations_commute_witness :
  reg_op (ByAddress RegLoadSession 4096)
  <> reg_op (ByName "spots_dart_dispatch") /\
  perform demo_dlsym (ByAddress RegLoadSession 4096)
    (perform demo_dlsym (ByName "spots_dart_dispatch") (loaded ([] : seen)))
  = perform demo_dlsym (ByName "spots_dart_dispatch")
      (perform demo_dlsym (ByAddress RegLoadSession 4096)
         (loaded ([] : seen))).
Proof.
  split; [discriminate |].
  apply (registrations_commute demo_dlsym (ByAddress RegLoadSession 4096)
           (ByName "spots_dart_dispatch") (loaded ([] : seen))).
  discriminate.
Defined.

Lemma by_name_is_address_strategy_witness :
  demo_dlsym "spots_dart_dispatch" <> NULL /\
  signal_register_dispatch_callback_by_name demo_dlsym "spots_dart_dispatch"
    (loaded ([] : seen))
  = signal_register_dispatch_callback_ptr 8192 (loaded ([] : seen)).
Proof.
  split; [vm_compute; discriminate |].
  apply (by_name_is_address_strategy demo_dlsym "spots_dart_dispatch"
           (loaded ([] : seen))).
  vm_compute. discriminate.
Defined.

Lemma only_null_by_address_clears_witness :
  slot Dispatch
    (perform demo_dlsym (ByAddress RegDispatch NULL)
       (signal_register_dispatch_callback_ptr 8192 (loaded ([] : seen))))
  = NULL /\
  (slot Dispatch
     (signal_register_dispatch_callback_ptr 8192 (loaded ([] : seen)))
   = NULL \/
   exists e, ByAddress RegDispatch NULL = ByAddress e NULL /\
             entry_op e = Dispatch).
Proof.
  split; [reflexivity |].
  apply (only_null_by_address_clears demo_dlsym
           (ByAddress RegDispatch NULL) Dispatch
           (signal_register_dispatch_callback_ptr 8192
              (loaded ([] : seen)))).
  reflexivity.
Defined.

Lemma other_status_is_the_handlers_witness :
  status_of (invoke demo_code (CallDispatch 42)
               (register RegDispatch 12288 (loaded ([] : seen)))) = Some 0 /\
  0 <> 1 /\
  slot Dispatch (register RegDispatch 12288 (loaded ([] : seen))) <> NULL /\
  exists f args fr x,
    demo_code (slot Dispatch (register RegDispatch 12288
                                (loaded ([] : seen)))) = Some f /\
    trace (invoke demo_code (CallDispatch 42)
             (register RegDispatch 12288 (loaded ([] : seen))))
    = [EvCall 12288 args fr] /\
    f args fr [] = Some (0, x).
Proof.
  split; [reflexivity |].
  split; [lia |].
  apply (other_status_is_the_handlers demo_code (CallDispatch 42)
           (register RegDispatch 12288 (loaded ([] : seen))) 0).
  - reflexivity.
  - lia.
Defined.

Lemma wrapper_undefined_iff_witness :
  out (invoke demo_code (CallDispatch 42)
         (register RegDispatch 777 (loaded ([] : seen)))) = Undefined.
Proof.
  apply (proj2 (wrapper_undefined_iff demo_code (CallDispatch 42)
                  (register RegDispatch 777 (loaded ([] : seen))))).
  split; [vm_compute; discriminate |].
  exists [Vu64 42], no_locals. split; [reflexivity |].
  left. reflexivity.
Defined.

Lemma unregistered_series_witness :
  Forall (fun c => slot (op_of c) (loaded ([] : seen)) = NULL)
    [CallDispatch 1; CallLoadSession 7 9 {| raw := 11 |}] /\
  run demo_code [CallDispatch 1; CallLoadSession 7 9 {| raw := 11 |}]
    (loaded ([] : seen))
  = [(CallDispatch 1, not_registered (loaded []));
     (CallLoadSession 7 9 {| raw := 11 |}, not_registered (loaded []))].
Proof.
  assert (Hs : Forall (fun c => slot (op_of c) (loaded ([] : seen)) = NULL)
                 [CallDispatch 1; CallLoadSession 7 9 {| raw := 11 |}]).
  { repeat constructor. }
  split; [exact Hs |].
  apply (unregistered_series demo_code
           [CallDispatch 1; CallLoadSession 7 9 {| raw := 11 |}]
           (loaded ([] : seen)) Hs).
Defined.

Lemma calls_go_to_registered_witness :
  after demo_code demo_dlsym demo_history (loaded ([] : seen))
  = Some (signal_register_dispatch_callback_ptr 8192 (loaded [])) /\
  In (EvCall 8192 [Vu64 2] no_locals)
     (trace (invoke demo_code (CallDispatch 2)
               (signal_register_dispatch_callback_ptr 8192
                  (loaded ([] : seen))))) /\
  8192 <> NULL /\
  exists r, In (Host r) demo_history /\ reg_op r = Dispatch /\
            supplied demo_dlsym r = 8192.
Proof.
  split; [reflexivity |].
  split; [left; reflexivity |].
  apply (calls_go_to_registered demo_code demo_dlsym demo_history []
           (signal_register_dispatch_callback_ptr 8192 (loaded ([] : seen)))
           (CallDispatch 2) 8192 [Vu64 2] no_locals).
  - reflexivity.
  - left. reflexivity.
Defined.

Lemma dart_callback_ptr_mirrors_witness :
  after demo_code demo_dlsym demo_history (loaded ([] : seen))
  = Some (signal_register_dispatch_callback_ptr 8192 (loaded [])) /\
  forallb (fun a => negb (is_direct a)) demo_history = true /\
  g_dart_callback_ptr
    (signal_register_dispatch_callback_ptr 8192 (loaded ([] : seen)))
  = g_dart_callback
      (signal_register_dispatch_callback_ptr 8192 (loaded ([] : seen))).
Proof.
  split; [reflexivity |].
  split; [reflexivity |].
  apply (proj1 (dart_callback_ptr_mirrors demo_code demo_dlsym demo_history
                  [] (signal_register_dispatch_callback_ptr 8192
                        (loaded ([] : seen)))
                  eq_refl eq_refl)).
Defined.

Lemma self_registration_diverges_witness :
  signal_get_dispatch_function_ptr 20480 <> NULL /\
  g_dart_callback
    (signal_register_dispatch_callback_ptr
       (signal_get_dispatch_function_ptr 20480) (loaded ([] : seen)))
  = signal_get_dispatch_function_ptr 20480 /\
  signal_dispatch_wrapper_linked demo_code 20480 5 42
    (signal_register_dispatch_callback_ptr
       (signal_get_dispatch_function_ptr 20480) (loaded ([] : seen)))
  = None.
Proof.
  split; [vm_compute; discriminate |].
  split; [reflexivity |].
  apply (self_registration_diverges demo_code 20480 5 42
           (signal_register_dispatch_callback_ptr
              (signal_get_dispatch_function_ptr 20480)
              (loaded ([] : seen)))).
  - vm_compute. discriminate.
  - reflexivity.
Defined.

Lemma slot_is_last_supplied_witness :
  after demo_code demo_dlsym demo_history (loaded ([] : seen))
  = Some (signal_register_dispatch_callback_ptr 8192 (loaded [])) /\
  slot Dispatch
    (signal_register_dispatch_callback_ptr 8192 (loaded ([] : seen)))
  = last_supplied demo_dlsym Dispatch demo_history
      (slot Dispatch (loaded ([] : seen))).
Proof.
  split; [reflexivity |].
  apply (slot_is_last_supplied demo_code demo_dlsym demo_history
           (loaded ([] : seen))
           (signal_register_dispatch_callback_ptr 8192 (loaded []))
           Dispatch).
  reflexivity.
Defined.

Lemma handler_call_fixed_by_slot_witness :
  slot (op_of (CallLoadSession 7 9 {| raw := 11 |}))
    (spots_register_load_session_callback 4096 (loaded ([] : seen)))
  = slot (op_of (CallLoadSession 7 9 {| raw := 11 |}))
      (with_host [(1, 2)]
         (signal_register_dispatch_callback 8192
            (spots_register_load_session_callback 4096 (loaded [])))) /\
  trace (invoke demo_code (CallLoadSession 7 9 {| raw := 11 |})
           (spots_register_load_session_callback 4096 (loaded ([] : seen))))
  = trace (invoke demo_code (CallLoadSession 7 9 {| raw := 11 |})
             (with_host [(1, 2)]
                (signal_register_dispatch_callback 8192
                   (spots_register_load_session_callback 4096
                      (loaded []))))).
Proof.
  split; [reflexivity |].
  apply (handler_call_fixed_by_slot demo_code
           (CallLoadSession 7 9 {| raw := 11 |})
           (spots_register_load_session_callback 4096 (loaded ([] : seen)))
           (with_host [(1, 2)]
              (signal_register_dispatch_callback 8192
                 (spots_register_load_session_callback 4096 (loaded []))))).
  reflexivity.
Defined.
